(** * YouTube_Video_Downloader: the request handler [downloadYouTubeVideo]

    A shallow embedding of [source/YouTubeVideoDownloaderDriver.py].

    The handler is straight-line orchestration around three collaborators:
    the stream provider ([pytube]), the windowing toolkit ([tkinter]) and
    the operating system ([os], [os.path], [pathlib], [logging]).  The
    collaborators are modelled as follows.

    - The provider is a record of oracles ([Provider]): every call into it
      either returns a value or raises; the download oracle is an arbitrary
      transformer of the file system.
    - The file system is a finite map from paths to the bytes of regular
      files; [os.remove], [os.rename] and [os.path.isfile] act on it with
      their POSIX meaning.
    - [os.path] is the POSIX flavour ([posixpath]): separator [/], no
      alternative separator, extension separator [.].
    - Python control flow (exceptions, [return] inside [finally] and inside
      an [except] clause) is carried by a small monad whose computations end
      in a completion: normal, return or raise.
    - Every call with an effect the user or the caller can observe leaves an
      event in the trace of the request. *)

From Stdlib Require Import ZArith Ascii String Lia.
From stdpp Require Import gmap strings.

(* ===================================================================== *)
(** * Python strings *)
(* ===================================================================== *)

(** The operations of [str] that the driver and [os.path] use.  Indices are
    integers as in Python; the slices below are only ever taken at
    non-negative indices. *)
Module str.

Fixpoint take (n : nat) (s : string) : string :=
  match n, s with
  | S n', String a s' => String a (take n' s')
  | _, _ => EmptyString
  end.

Fixpoint drop (n : nat) (s : string) : string :=
  match n, s with
  | S n', String _ s' => drop n' s'
  | _, _ => s
  end.

(** [s[:j]] *)
Definition slice_to (s : string) (j : Z) : string := take (Z.to_nat j) s.

(** [s[i:]] *)
Definition slice_from (s : string) (i : Z) : string := drop (Z.to_nat i) s.

(** [s[i:j]] *)
Definition slice (s : string) (i j : Z) : string :=
  take (Z.to_nat (j - i)) (drop (Z.to_nat i) s).

(** [s.rfind(c)] for a one-character [c]: the highest index holding [c],
    or [-1]. *)
Fixpoint rfind (c : ascii) (s : string) : Z :=
  match s with
  | EmptyString => (-1)%Z
  | String a s' =>
      let r := rfind c s' in
      if (0 <=? r)%Z then (r + 1)%Z
      else if Ascii.eqb a c then 0%Z else (-1)%Z
  end.

(** [s.startswith(c)] and [s.endswith(c)] for a one-character [c]. *)
Definition startswith (s : string) (c : ascii) : bool :=
  match s with
  | String a _ => Ascii.eqb a c
  | EmptyString => false
  end.

Fixpoint endswith (s : string) (c : ascii) : bool :=
  match s with
  | EmptyString => false
  | String a EmptyString => Ascii.eqb a c
  | String _ s' => endswith s' c
  end.

(** [s.rstrip(c)] for a one-character [c]. *)
Fixpoint rstrip (c : ascii) (s : string) : string :=
  match s with
  | EmptyString => EmptyString
  | String a s' =>
      match rstrip c s' with
      | EmptyString => if Ascii.eqb a c then EmptyString else String a EmptyString
      | r => String a r
      end
  end.

(** [c * n] *)
Fixpoint repeat (c : ascii) (n : nat) : string :=
  match n with
  | O => EmptyString
  | S n' => String c (repeat c n')
  end.


End str.

(* ===================================================================== *)
(** * [os.path] (POSIX flavour) *)
(* ===================================================================== *)

Module os_path.

Definition sep : ascii := "/"%char.
Definition extsep : ascii := "."%char.

(** The [while] loop of [genericpath._splitext]: starting at
    [filenameIndex], look for a character that is not [extsep] before
    [dotIndex]; [n] is the number of iterations left,
    [dotIndex - filenameIndex].  [true] stands for the [return] inside
    the loop. *)
Fixpoint skip_leading_dots (p : string) (extsep : ascii)
         (filenameIndex : Z) (n : nat) : bool :=
  match n with
  | O => false
  | S n' =>
      if negb (String.eqb (str.slice p filenameIndex (filenameIndex + 1))
                          (String extsep EmptyString))
      then true
      else skip_leading_dots p extsep (filenameIndex + 1) n'
  end.

(** [genericpath._splitext(p, sep, altsep, extsep)] *)
Definition _splitext (p : string) (sep : ascii) (altsep : option ascii)
           (extsep : ascii) : string * string :=
  let sepIndex := str.rfind sep p in
  let sepIndex :=
    match altsep with
    | Some alt => Z.max sepIndex (str.rfind alt p)
    | None => sepIndex
    end in
  let dotIndex := str.rfind extsep p in
  if (sepIndex <? dotIndex)%Z
     && skip_leading_dots p extsep (sepIndex + 1)
                          (Z.to_nat (dotIndex - (sepIndex + 1)))
  then (str.slice_to p dotIndex, str.slice_from p dotIndex)
  else (p, str.slice_to p 0).

(** [os.path.splitext(p)] *)
Definition splitext (p : string) : string * string :=
  _splitext p sep None extsep.

(** [os.path.join(a, b)] with one component [b]. *)
Definition join (a b : string) : string :=
  if str.startswith b sep then b
  else if String.eqb a EmptyString || str.endswith a sep then a +:+ b
  else a +:+ String sep EmptyString +:+ b.

(** [os.path.split(p)] *)
Definition split (p : string) : string * string :=
  let i := (str.rfind sep p + 1)%Z in
  let head := str.slice_to p i in
  let tail := str.slice_from p i in
  let head :=
    if negb (String.eqb head EmptyString)
       && negb (String.eqb head (str.repeat sep (String.length head)))
    then str.rstrip sep head
    else head in
  (head, tail).

Definition dirname (p : string) : string := fst (split p).
Definition basename (p : string) : string := snd (split p).

End os_path.

(* ===================================================================== *)
(** * Data model *)
(* ===================================================================== *)

(** Python values that reach the handler as [fileType] or leave it as its
    return value.  A [tk.BooleanVar] is a reference into the store of
    toolkit variables: the two buttons share one holder. *)
Definition BooleanVar := nat.

Inductive pyval :=
| VNone
| VBool (b : bool)
| VInt (z : Z)
| VStr (s : string)
| VBooleanVar (r : BooleanVar).

(** [v == s] for a string literal [s]: values of another type are never
    equal to a string. *)
Definition py_eq_str (v : pyval) (s : string) : bool :=
  match v with
  | VStr s' => String.eqb s' s
  | _ => false
  end.

(** A [tk.StringVar] read with [get()]; the entry box is not edited while
    the handler runs on the single UI thread. *)
Record StringVar := { StringVar_get : string }.

(** Exceptions.  [except Exception] catches the first kind only, a bare
    [except:] catches both. *)
Inductive PyExn :=
| ExceptionInstance (cls : string)
| BaseExceptionOnly (cls : string).

Definition isinstance_Exception (e : PyExn) : bool :=
  match e with
  | ExceptionInstance _ => true
  | BaseExceptionOnly _ => false
  end.

Definition UnboundLocalError : PyExn := ExceptionInstance "UnboundLocalError".
Definition AttributeError : PyExn := ExceptionInstance "AttributeError".
Definition FileNotFoundError : PyExn := ExceptionInstance "FileNotFoundError".
Definition IsADirectoryError : PyExn := ExceptionInstance "IsADirectoryError".

Inductive Result (A : Type) :=
| Ok (a : A)
| Err (e : PyExn).
Arguments Ok {A} a.
Arguments Err {A} e.

(** The file system: regular files by path. *)
Abbreviation FS := (gmap string (list Byte.byte)).

(** Opaque handles of the provider. *)
Definition YouTubeObj := nat.
Definition Stream := nat.

(** What the handler finds around it.  The provider ([pytube]):
    [streams_*] stand for the whole expression
    [yt.streams.<selector>()], which returns a stream or [None].  The
    disk: [isdir] tells the paths that are directories ([os.path.isdir]);
    the handler and the download write, remove and rename regular files
    and leave the directories as they are. *)
Record Provider := {
  YouTube : string -> bool -> Result YouTubeObj;
  title : YouTubeObj -> Result string;
  streams_get_audio_only : YouTubeObj -> Result (option Stream);
  streams_get_highest_resolution : YouTubeObj -> Result (option Stream);
  str_stream : Stream -> string;
  download : Stream -> string -> FS -> Result string * FS;
  isdir : string -> bool
}.

(** What a request lets the outside observe, in program order. *)
Inductive event :=
| LogInfo (msg : string)
| LogWarning (msg : string)
| LogError (msg : string)
| LogException (e : PyExn)
| ShowError (title message : string)
| ShowInfo (title message : string)
| SetBooleanVar (r : BooleanVar) (b : bool)
| CallYouTube (url : string) (use_oauth : bool)
| CallGetAudioOnly (yt : YouTubeObj)
| CallGetHighestResolution (yt : YouTubeObj)
| CallDownload (stream : Stream) (output_path : string)
| DownloadReturned (outFile : string)
| OsRemove (path : string)
| OsRename (src dst : string).

(** A local variable of the running function. *)
Inductive local (A : Type) :=
| Unbound
| Bound (a : A).
Arguments Unbound {A}.
Arguments Bound {A} a.

(** The state a request runs in: the regular files and the directories of
    the disk, the toolkit's Boolean variables, and the two locals that are
    assigned inside [try] blocks. *)
Record State := {
  fs : FS;
  dirs : string -> bool;
  boolvars : gmap BooleanVar bool;
  yt : local (option YouTubeObj);
  stream : local (option Stream)
}.

Definition set_fs (f : FS) (s : State) : State :=
  {| fs := f; dirs := dirs s; boolvars := boolvars s; yt := yt s;
     stream := stream s |}.
Definition set_boolvars (b : gmap BooleanVar bool) (s : State) : State :=
  {| fs := fs s; dirs := dirs s; boolvars := b; yt := yt s; stream := stream s |}.
Definition set_yt (y : local (option YouTubeObj)) (s : State) : State :=
  {| fs := fs s; dirs := dirs s; boolvars := boolvars s; yt := y;
     stream := stream s |}.
Definition set_stream (x : local (option Stream)) (s : State) : State :=
  {| fs := fs s; dirs := dirs s; boolvars := boolvars s; yt := yt s;
     stream := x |}.

(** How a statement can end. *)
Inductive completion (A : Type) :=
| Normal (a : A)
| Return (v : pyval)
| Raise (e : PyExn).
Arguments Normal {A} a.
Arguments Return {A} v.
Arguments Raise {A} e.

(* ===================================================================== *)
(** * The monad of statements *)
(* ===================================================================== *)

Definition M (A : Type) : Type := State -> completion A * State * list event.

Definition M_ret {A} (a : A) : M A := fun s => (Normal a, s, []).

Definition M_bind {A B} (f : A -> M B) (m : M A) : M B :=
  fun s =>
    match m s with
    | (Normal a, s1, t1) =>
        match f a s1 with
        | (c, s2, t2) => (c, s2, t1 ++ t2)
        end
    | (Return v, s1, t1) => (Return v, s1, t1)
    | (Raise e, s1, t1) => (Raise e, s1, t1)
    end.

#[global] Instance M_MRet : MRet M := @M_ret.
#[global] Instance M_MBind : MBind M := @M_bind.

(** [return v] *)
Definition py_return {A} (v : pyval) : M A := fun s => (Return v, s, []).

(** [raise e] *)
Definition py_raise {A} (e : PyExn) : M A := fun s => (Raise e, s, []).

Definition emit (e : event) : M unit := fun s => (Normal tt, s, [e]).

Definition modify (f : State -> State) : M unit := fun s => (Normal tt, f s, []).

(** [try: body  except <catches>: handler] *)
Definition try_except {A} (body : M A) (catches : PyExn -> bool)
           (handler : PyExn -> M A) : M A :=
  fun s =>
    match body s with
    | (Raise e, s1, t1) =>
        if catches e then
          match handler e s1 with
          | (c, s2, t2) => (c, s2, t1 ++ t2)
          end
        else (Raise e, s1, t1)
    | r => r
    end.

(** [try: body  finally: final].  The [finally] clause always runs; when it
    ends normally the completion of [body] stands, otherwise its own
    [return] or exception replaces it. *)
Definition try_finally {A} (body : M A) (final : M unit) : M A :=
  fun s =>
    match body s with
    | (c, s1, t1) =>
        match final s1 with
        | (Normal _, s2, t2) => (c, s2, t1 ++ t2)
        | (Return v, s2, t2) => (Return v, s2, t1 ++ t2)
        | (Raise e, s2, t2) => (Raise e, s2, t1 ++ t2)
        end
    end.

(** Reading a local: an unbound one raises [UnboundLocalError]. *)
Definition read_local {A} (proj : State -> local A) : M A :=
  fun s =>
    match proj s with
    | Bound a => (Normal a, s, [])
    | Unbound => (Raise UnboundLocalError, s, [])
    end.

(* ===================================================================== *)
(** * Collaborators *)
(* ===================================================================== *)

Module logging.
Definition info (msg : string) : M unit := emit (LogInfo msg).
Definition warning (msg : string) : M unit := emit (LogWarning msg).
Definition error (msg : string) : M unit := emit (LogError msg).
Definition exception (msg : PyExn) : M unit := emit (LogException msg).
End logging.

Module messagebox.
Definition showerror (title message : string) : M unit :=
  emit (ShowError title message).
Definition showinfo (title message : string) : M unit :=
  emit (ShowInfo title message).
End messagebox.

(** [ret.set(b)] *)
Definition BooleanVar_set (r : BooleanVar) (b : bool) : M unit :=
  fun s => (Normal tt, set_boolvars (<[r := b]> (boolvars s)) s, [SetBooleanVar r b]).

Module os.
(** [os.path.isfile(p)] *)
Definition path_isfile (p : string) : M bool :=
  fun s =>
    match fs s !! p with
    | Some _ => (Normal true, s, [])
    | None => (Normal false, s, [])
    end.

(** [os.remove(p)] *)
Definition remove (p : string) : M unit :=
  fun s =>
    match fs s !! p with
    | Some _ => (Normal tt, set_fs (delete p (fs s)) s, [OsRemove p])
    | None => (Raise FileNotFoundError, s, [OsRemove p])
    end.

(** [os.rename(src, dst)] for a regular file [src]: a missing [src]
    raises [FileNotFoundError], a directory at [dst] raises
    [IsADirectoryError], an existing regular file at [dst] is replaced. *)
Definition rename (src dst : string) : M unit :=
  fun s =>
    match fs s !! src with
    | Some bytes =>
        if dirs s dst then (Raise IsADirectoryError, s, [OsRename src dst])
        else
          (Normal tt, set_fs (<[dst := bytes]> (delete src (fs s))) s,
           [OsRename src dst])
    | None => (Raise FileNotFoundError, s, [OsRename src dst])
    end.
End os.

(** Lifting an oracle's answer into the monad. *)
Definition of_Result {A} (r : Result A) : M A :=
  match r with
  | Ok a => mret a
  | Err e => py_raise e
  end.

(** [str(stream)] *)
Definition py_str_stream (P : Provider) (st : option Stream) : string :=
  match st with
  | Some x => str_stream P x
  | None => "None"
  end.

(** [stream.download(output_path = d)]; calling it on [None] raises
    [AttributeError] before anything is contacted. *)
Definition Stream_download (P : Provider) (st : option Stream) (d : string) : M string :=
  match st with
  | None => py_raise AttributeError
  | Some x =>
      fun s =>
        match download P x d (fs s) with
        | (Ok outFile, f) =>
            (Normal outFile, set_fs f s, [CallDownload x d; DownloadReturned outFile])
        | (Err e, f) => (Raise e, set_fs f s, [CallDownload x d])
        end
  end.

(* ===================================================================== *)
(** * Module constants *)
(* ===================================================================== *)

Definition FILE_TYPES : string * string := ("mp3", "mp4").

Definition GUI_ERROR_URL_TITLE : string := "URL Error".
Definition GUI_ERROR_URL_TEXT_EMPTY : string := "The URL is empty.".
Definition GUI_ERROR_URL_TEXT_INVALID : string := "The URL is invalid.".

Definition GUI_ERROR_AGE_TITLE : string := "Age Restriction Error".
Definition GUI_ERROR_AGE_TEXT : string := "The video is age restricted.".

Definition GUI_INFO_SUCCESS_TITLE : string := "Download Successful".
Definition GUI_INFO_SUCCESS_TEXT : string := "The content was successfully downloaded.".

(* ===================================================================== *)
(** * The request handler *)
(* ===================================================================== *)

Section Handler.

(** The provider, and [Path.home()] as a path string: both are fixed for
    the life of the process. *)
Variable P : Provider.
Variable home : string.

(** Lines 180-189: the body of [if (fileType == "mp3")] after the
    download. *)
Definition convert_to_mp3 (outFile : string) : M unit :=
  logging.info "Saving file as .mp3 format.";;
  let '(base, ext) := os_path.splitext outFile in
  let newFile := base +:+ ".mp3" in
  exists_ ← os.path_isfile newFile;
  (if (exists_ : bool) then
     logging.warning "Overwriting file with identical name.";;
     os.remove newFile
   else mret tt);;
  os.rename outFile newFile.

(** The body of [downloadYouTubeVideo(url, fileType, ret)], statement by
    statement.  [url] and [ret] are the toolkit variables the caller passes;
    every [url.get()] of the source reads the same string. *)
Definition downloadYouTubeVideo_body (url : StringVar) (fileType : pyval)
           (ret : BooleanVar) : M unit :=
  (* lines 132-151: try / except Exception as e / finally *)
  try_finally
    (try_except
       (logging.info "Attempting to access URL.";;
        y ← (emit (CallYouTube (StringVar_get url) true);;
             of_Result (YouTube P (StringVar_get url) true));
        modify (set_yt (Bound (Some y))))
       isinstance_Exception
       (fun e =>
          logging.warning ("Unable to access YouTube URL of " +:+ StringVar_get url);;
          logging.exception e;;
          modify (set_yt (Bound None))))
    (y ← read_local yt;
     match y with
     | Some y =>
         logging.info "URL access successful. Video has been found.";;
         t ← of_Result (title P y);
         logging.info ("The video's title is " +:+ t)
     | None =>
         logging.error "The YouTube link could not be accessed.";;
         messagebox.showerror GUI_ERROR_URL_TITLE
           (if String.eqb (StringVar_get url) EmptyString then GUI_ERROR_URL_TEXT_EMPTY
            else GUI_ERROR_URL_TEXT_INVALID);;
         BooleanVar_set ret false;;
         py_return VNone
     end);;
  (* lines 154-168: try / except: *)
  try_except
    (y ← read_local yt;
     match y with
     | None => py_raise AttributeError
     | Some y =>
         if py_eq_str fileType "mp3" then
           logging.info "Accessing highest quality audio stream.";;
           emit (CallGetAudioOnly y);;
           x ← of_Result (streams_get_audio_only P y);
           modify (set_stream (Bound x))
         else
           logging.info "Accessing highest quality video stream.";;
           emit (CallGetHighestResolution y);;
           x ← of_Result (streams_get_highest_resolution P y);
           modify (set_stream (Bound x))
     end)
    (fun _ => true)
    (fun _ =>
       logging.error "The YouTube video is age restricted and cannot be downloaded.";;
       messagebox.showerror GUI_ERROR_AGE_TITLE GUI_ERROR_AGE_TEXT;;
       BooleanVar_set ret false;;
       py_return VNone);;
  (* lines 170-176: outside every try *)
  x ← read_local stream;
  logging.info ("Stream data is " +:+ py_str_stream P x);;
  logging.info ("Starting download of stream at " +:+ StringVar_get url);;
  outFile ← Stream_download P x (os_path.join home "Downloads");
  logging.info ("Finished download of stream at " +:+ StringVar_get url);;
  (* lines 178-189 *)
  (if py_eq_str fileType "mp3" then convert_to_mp3 outFile else mret tt);;
  (* lines 191-194 *)
  BooleanVar_set ret true;;
  messagebox.showinfo GUI_INFO_SUCCESS_TITLE GUI_INFO_SUCCESS_TEXT;;
  py_return (VBooleanVar ret).

End Handler.

(** The world between requests: what outlives a call. *)
Record World := {
  w_fs : FS;
  w_boolvars : gmap BooleanVar bool
}.

(** How a call ends for its caller. *)
Inductive outcome :=
| Returned (v : pyval)
| Raised (e : PyExn).

(** One finished call: how it ended, the world it leaves, and what it let
    the outside observe. *)
Record Run := {
  run_outcome : outcome;
  run_world : World;
  run_events : list event
}.

(** Calling the function: a fresh frame with both locals unbound, on the
    disk as it is; falling off the end of the body returns [None]. *)
Definition downloadYouTubeVideo (P : Provider) (home : string)
           (url : StringVar) (fileType : pyval) (ret : BooleanVar)
           (w : World) : Run :=
  match downloadYouTubeVideo_body P home url fileType ret
          {| fs := w_fs w; dirs := isdir P; boolvars := w_boolvars w;
             yt := Unbound; stream := Unbound |}
  with
  | (c, s, t) =>
      {| run_outcome :=
           match c with
           | Normal _ => Returned VNone
           | Return v => Returned v
           | Raise e => Raised e
           end;
         run_world := {| w_fs := fs s; w_boolvars := boolvars s |};
         run_events := t |}
  end.

(** The two button commands built by [createGUI]:
    [lambda: downloadYouTubeVideo(url = url, fileType = FILE_TYPES[i], ret = ret)]. *)
Inductive Kind := AUDIO | VIDEO.

Definition fileType_of (kind : Kind) : pyval :=
  match kind with
  | AUDIO => VStr (fst FILE_TYPES)
  | VIDEO => VStr (snd FILE_TYPES)
  end.

Definition button_command (P : Provider) (home : string) (url : StringVar)
           (ret : BooleanVar) (kind : Kind) (w : World) : Run :=
  downloadYouTubeVideo P home url (fileType_of kind) ret w.

(* ===================================================================== *)
(** * Observations on a finished call *)
(* ===================================================================== *)

(** A call succeeded when it handed the result holder back to its caller. *)
Definition is_success (ret : BooleanVar) (r : Run) : Prop :=
  run_outcome r = Returned (VBooleanVar ret).

(** The assignments [ret.set(b)] made during the call, in order. *)
Fixpoint boolvar_assignments (t : list event) : list (BooleanVar * bool) :=
  match t with
  | [] => []
  | SetBooleanVar r b :: t' => (r, b) :: boolvar_assignments t'
  | _ :: t' => boolvar_assignments t'
  end.

(** The calls [stream.download(output_path = d)] made during the call. *)
Fixpoint download_calls (t : list event) : list (Stream * string) :=
  match t with
  | [] => []
  | CallDownload x d :: t' => (x, d) :: download_calls t'
  | _ :: t' => download_calls t'
  end.

(** The file-system calls [os.remove] and [os.rename] made during the
    call. *)
Definition is_os_call (e : event) : bool :=
  match e with
  | OsRemove _ | OsRename _ _ => true
  | _ => false
  end.

Definition os_calls (t : list event) : list event := List.filter is_os_call t.

Definition is_audio_selection (e : event) : bool :=
  match e with
  | CallGetAudioOnly _ => true
  | _ => false
  end.

Definition is_video_selection (e : event) : bool :=
  match e with
  | CallGetHighestResolution _ => true
  | _ => false
  end.

(** The modal dialogs shown during the call. *)
Fixpoint dialogs (t : list event) : list event :=
  match t with
  | [] => []
  | ShowError a b :: t' => ShowError a b :: dialogs t'
  | ShowInfo a b :: t' => ShowInfo a b :: dialogs t'
  | _ :: t' => dialogs t'
  end.

(** The events that precede the first assignment to a result holder. *)
Fixpoint before_result (t : list event) : list event :=
  match t with
  | [] => []
  | SetBooleanVar _ _ :: _ => []
  | e :: t' => e :: before_result t'
  end.

(** The path of the file the request leaves behind: where the provider put
    it, or where the last rename moved it. *)
Fixpoint final_path_from (acc : option string) (t : list event) : option string :=
  match t with
  | [] => acc
  | DownloadReturned p :: t' => final_path_from (Some p) t'
  | OsRename _ dst :: t' => final_path_from (Some dst) t'
  | _ :: t' => final_path_from acc t'
  end.

Definition final_path (t : list event) : option string := final_path_from None t.

(** The spec's view of a request (its section 3): the three error kinds the
    notifier distinguishes and the result record. *)
Inductive ErrorKind := URL_EMPTY | URL_INVALID | ACCESS_RESTRICTED.

Record DownloadResult := {
  success : bool;
  filePath : option string;
  errorKind : option ErrorKind
}.

(** The error kind a dialog stands for. *)
Definition errorKind_of_dialog (e : event) : option ErrorKind :=
  match e with
  | ShowError a b =>
      if String.eqb a GUI_ERROR_URL_TITLE && String.eqb b GUI_ERROR_URL_TEXT_EMPTY
      then Some URL_EMPTY
      else if String.eqb a GUI_ERROR_URL_TITLE && String.eqb b GUI_ERROR_URL_TEXT_INVALID
      then Some URL_INVALID
      else if String.eqb a GUI_ERROR_AGE_TITLE && String.eqb b GUI_ERROR_AGE_TEXT
      then Some ACCESS_RESTRICTED
      else None
  | _ => None
  end.

(** The result a finished call reports: none when an exception left the
    handler; otherwise the value of the holder, the error kind of the
    dialog shown, and on success the path of the file. *)
Definition DownloadResult_of (ret : BooleanVar) (r : Run) : option DownloadResult :=
  match run_outcome r with
  | Raised _ => None
  | Returned _ =>
      let ok := default false (w_boolvars (run_world r) !! ret) in
      Some {| success := ok;
              filePath := if ok then final_path (run_events r) else None;
              errorKind :=
                match dialogs (run_events r) with
                | d :: _ => errorKind_of_dialog d
                | [] => None
                end |}
  end.

(** The stream selector the handler calls for a [fileType]. *)
Definition selector (P : Provider) (fileType : pyval) :
  YouTubeObj -> Result (option Stream) :=
  if py_eq_str fileType "mp3" then streams_get_audio_only P
  else streams_get_highest_resolution P.

(** The destination directory handed to every download. *)
Definition downloads_dir (home : string) : string := os_path.join home "Downloads".

(** The target of the audio rename for a downloaded file. *)
Definition mp3_path (outFile : string) : string :=
  fst (os_path.splitext outFile) +:+ ".mp3".

(* ===================================================================== *)
(** * Sample collaborators *)
(* ===================================================================== *)

Module Sample.

Definition home : string := "/home/u".
Definition url : StringVar := {| StringVar_get := "https://example.com/watch?v=abc" |}.
Definition empty_url : StringVar := {| StringVar_get := EmptyString |}.
Definition ret : BooleanVar := 0.
Definition bytes : list Byte.byte := [Byte.x49; Byte.x44; Byte.x33].

(** A provider that rejects the empty URL, offers an audio-only stream [1]
    and a combined stream [2], and writes [<dir>/Clip.mp4]. *)
Definition provider : Provider := {|
  YouTube u _ :=
    if String.eqb u EmptyString then Err (ExceptionInstance "RegexMatchError") else Ok 7;
  title _ := Ok "Clip";
  streams_get_audio_only _ := Ok (Some 1);
  streams_get_highest_resolution _ := Ok (Some 2);
  str_stream _ := "<Stream>";
  download _ d f := (Ok (d +:+ "/Clip.mp4"), <[d +:+ "/Clip.mp4" := bytes]> f);
  isdir _ := false
|}.

(** The same provider with an age-gated video: selecting a stream
    raises. *)
Definition age_gated : Provider := {|
  YouTube := YouTube provider;
  title := title provider;
  streams_get_audio_only _ := Err (ExceptionInstance "AgeRestrictedError");
  streams_get_highest_resolution _ := Err (ExceptionInstance "AgeRestrictedError");
  str_stream := str_stream provider;
  download := download provider;
  isdir _ := false
|}.

(** The same provider on a full disk: the download raises and writes
    nothing. *)
Definition disk_full : Provider := {|
  YouTube := YouTube provider;
  title := title provider;
  streams_get_audio_only := streams_get_audio_only provider;
  streams_get_highest_resolution := streams_get_highest_resolution provider;
  str_stream := str_stream provider;
  download _ _ f := (Err (ExceptionInstance "OSError"), f);
  isdir _ := false
|}.

(** A provider whose audio stream is stored as [<dir>/Clip.mp3]
    already. *)
Definition native_mp3 : Provider := {|
  YouTube := YouTube provider;
  title := title provider;
  streams_get_audio_only := streams_get_audio_only provider;
  streams_get_highest_resolution := streams_get_highest_resolution provider;
  str_stream := str_stream provider;
  download _ d f := (Ok (d +:+ "/Clip.mp3"), <[d +:+ "/Clip.mp3" := bytes]> f);
  isdir _ := false
|}.

(** A provider that offers no audio-only stream: the selector returns
    [None]. *)
Definition no_audio : Provider := {|
  YouTube := YouTube provider;
  title := title provider;
  streams_get_audio_only _ := Ok None;
  streams_get_highest_resolution := streams_get_highest_resolution provider;
  str_stream := str_stream provider;
  download := download provider;
  isdir _ := false
|}.

(** A provider whose video object cannot tell its title. *)
Definition title_unreadable : Provider := {|
  YouTube := YouTube provider;
  title _ := Err (ExceptionInstance "PytubeError");
  streams_get_audio_only := streams_get_audio_only provider;
  streams_get_highest_resolution := streams_get_highest_resolution provider;
  str_stream := str_stream provider;
  download := download provider;
  isdir _ := false
|}.

(** The user interrupts the resolution: the call raises an exception that
    is not an [Exception]. *)
Definition interrupted : Provider := {|
  YouTube _ _ := Err (BaseExceptionOnly "KeyboardInterrupt");
  title := title provider;
  streams_get_audio_only := streams_get_audio_only provider;
  streams_get_highest_resolution := streams_get_highest_resolution provider;
  str_stream := str_stream provider;
  download := download provider;
  isdir _ := false
|}.

(** The same provider on a machine without network: the object is built
    from the URL alone, and the first access to the service, reading the
    title, raises. *)
Definition offline : Provider := {|
  YouTube := YouTube provider;
  title _ := Err (ExceptionInstance "URLError");
  streams_get_audio_only := streams_get_audio_only provider;
  streams_get_highest_resolution := streams_get_highest_resolution provider;
  str_stream := str_stream provider;
  download := download provider;
  isdir _ := false
|}.

(** The same provider on a disk where [Clip.mp3] in the downloads folder
    is a directory. *)
Definition dir_at_target : Provider := {|
  YouTube := YouTube provider;
  title := title provider;
  streams_get_audio_only := streams_get_audio_only provider;
  streams_get_highest_resolution := streams_get_highest_resolution provider;
  str_stream := str_stream provider;
  download := download provider;
  isdir p := String.eqb p "/home/u/Downloads/Clip.mp3"
|}.

Definition world : World := {| w_fs := ∅; w_boolvars := ∅ |}.

(** A disk that already holds an older [Clip.mp3]. *)
Definition world_with_mp3 : World :=
  {| w_fs := {["/home/u/Downloads/Clip.mp3" := [Byte.x00]]}; w_boolvars := ∅ |}.

End Sample.

(* ===================================================================== *)
(** * The window and its main loop *)
(* ===================================================================== *)

Definition GUI_LABEL_ENTRY : string := "YouTube URL:".
Definition GUI_LABEL_MP3 : string := "mp3".
Definition GUI_LABEL_MP4 : string := "mp4".

Definition GUI_WINDOW_TITLE : string := "YouTube Video Downloader".

(** The resolution calls [YouTube(url = ..., use_oauth = ...)] among the
    events of a call. *)
Definition is_resolution (e : event) : bool :=
  match e with
  | CallYouTube _ _ => true
  | _ => false
  end.

(** The widgets [createGUI] puts on the grid of its frame.  The command of a
    button is [lambda: downloadYouTubeVideo(url = url, fileType = ft,
    ret = ret)] over the one entry variable and the one result holder of
    the window; the button records the [fileType] its command passes. *)
Inductive Widget :=
| Label (text : string) (column row : nat)
| Entry (width : nat) (column row : nat)
| Button (text : string) (width : nat) (fileType : pyval) (column row : nat).

Record Window := {
  win_title : string;
  win_resizable : bool * bool;
  win_widgets : list Widget
}.

(** Lines 81-109: the window as [createGUI] builds it. *)
Definition createGUI_window : Window :=
  {| win_title := GUI_WINDOW_TITLE;
     win_resizable := (false, false);
     win_widgets :=
       [Label GUI_LABEL_ENTRY 0 0;
        Entry 48 1 0;
        Button GUI_LABEL_MP3 12 (VStr (fst FILE_TYPES)) 2 0;
        Button GUI_LABEL_MP4 12 (VStr (snd FILE_TYPES)) 3 0] |}.

(** What the user does while the main loop runs: edit the entry (the text
    variable follows) or click the [i]-th widget.  The end of the list is
    the user closing the window. *)
Inductive UserAction :=
| TypeText (text : string)
| Click (i : nat).

(** The toolkit lets [SystemExit] out of a callback and reports every
    other exception without leaving the loop. *)
Definition SystemExit : PyExn := BaseExceptionOnly "SystemExit".

Definition is_SystemExit (e : PyExn) : bool :=
  match e with
  | BaseExceptionOnly cls => String.eqb cls "SystemExit"
  | ExceptionInstance _ => false
  end.

(** The window while the loop runs: the text of the entry, the world, the
    events of the requests so far, and the exceptions the toolkit
    reported. *)
Record Session := {
  s_url : string;
  s_world : World;
  s_log : list event;
  s_reported : list PyExn
}.

(** [root.mainloop()]: the actions one after the other.  A click on a
    button runs its command on the text the entry holds at that moment;
    the result of the command is dropped. *)
Fixpoint mainloop (P : Provider) (home : string) (win : Window)
         (ret : BooleanVar) (actions : list UserAction) (s : Session)
  : option PyExn * Session :=
  match actions with
  | [] => (None, s)
  | TypeText text :: rest =>
      mainloop P home win ret rest
        {| s_url := text; s_world := s_world s; s_log := s_log s;
           s_reported := s_reported s |}
  | Click i :: rest =>
      match win_widgets win !! i with
      | Some (Button _ _ fileType _ _) =>
          let r := downloadYouTubeVideo P home {| StringVar_get := s_url s |}
                     fileType ret (s_world s) in
          match run_outcome r with
          | Returned _ =>
              mainloop P home win ret rest
                {| s_url := s_url s; s_world := run_world r;
                   s_log := s_log s ++ run_events r;
                   s_reported := s_reported s |}
          | Raised e =>
              if is_SystemExit e then
                (Some e,
                 {| s_url := s_url s; s_world := run_world r;
                    s_log := s_log s ++ run_events r;
                    s_reported := s_reported s |})
              else
                mainloop P home win ret rest
                  {| s_url := s_url s; s_world := run_world r;
                     s_log := s_log s ++ run_events r;
                     s_reported := s_reported s ++ [e] |}
          end
      | _ => mainloop P home win ret rest s
      end
  end.

(** One finished run of [createGUI]. *)
Record GuiRun := {
  gui_outcome : outcome;
  gui_window : Window;
  gui_session : Session
}.

(** [createGUI()] on a disk [disk] with a user who performs [actions] and
    then closes the window.  The entry variable starts empty and the result
    holder, the second variable of the fresh interpreter, starts [False]. *)
Definition createGUI (P : Provider) (home : string) (disk : FS)
           (actions : list UserAction) : GuiRun :=
  let ret : BooleanVar := 1 in
  match mainloop P home createGUI_window ret actions
          {| s_url := EmptyString;
             s_world := {| w_fs := disk; w_boolvars := {[ret := false]} |};
             s_log := [LogInfo "Creating GUI."];
             s_reported := [] |}
  with
  | (None, s) =>
      {| gui_outcome := Returned (VBool true);
         gui_window := createGUI_window;
         gui_session :=
           {| s_url := s_url s; s_world := s_world s;
              s_log := s_log s ++ [LogInfo "GUI creation finished."];
              s_reported := s_reported s |} |}
  | (Some e, s) =>
      {| gui_outcome := Raised e;
         gui_window := createGUI_window;
         gui_session := s |}
  end.

(** [main()]: the result of [createGUI()] is dropped. *)
Definition main (P : Provider) (home : string) (disk : FS)
           (actions : list UserAction) : outcome :=
  match gui_outcome (createGUI P home disk actions) with
  | Returned _ => Returned VNone
  | Raised e => Raised e
  end.

(** The text the entry holds at each click on a button, in order. *)
Fixpoint clicked_urls (win : Window) (actions : list UserAction)
         (text : string) : list string :=
  match actions with
  | [] => []
  | TypeText t :: rest => clicked_urls win rest t
  | Click i :: rest =>
      match win_widgets win !! i with
      | Some (Button _ _ _ _ _) => text :: clicked_urls win rest text
      | _ => clicked_urls win rest text
      end
  end.

(** A provider none of whose answers is [SystemExit]. *)
Definition never_exits (P : Provider) : Prop :=
  (∀ y, title P y ≠ Err SystemExit)
  ∧ (∀ x d f f', download P x d f ≠ (Err SystemExit, f')).

(** The extension part of a path. *)
Definition extension (p : string) : string := snd (os_path.splitext p).

(* ===================================================================== *)
(** * Running the handler symbolically *)
(* ===================================================================== *)

(** [exec] unfolds the monad and the handler; [split_oracle] cases on the
    next answer of a collaborator the run is waiting for. *)

Ltac exec_with unfolding :=
  unfolding;
  try (progress (change (py_eq_str (VStr "mp3") "mp3") with true;
                 change (py_eq_str (VStr "mp4") "mp3") with false);
       unfolding).

Ltac exec :=
  exec_with ltac:(
    cbv beta iota zeta delta
      [button_command fileType_of FILE_TYPES fst snd
       downloadYouTubeVideo downloadYouTubeVideo_body convert_to_mp3
       try_finally try_except read_local Stream_download of_Result
       py_return py_raise emit modify BooleanVar_set
       logging.info logging.warning logging.error logging.exception
       messagebox.showerror messagebox.showinfo
       os.path_isfile os.remove os.rename
       mbind mret M_MBind M_MRet M_bind M_ret
       set_fs set_boolvars set_yt set_stream fs dirs boolvars yt stream
       run_outcome run_world run_events
       isinstance_Exception UnboundLocalError AttributeError FileNotFoundError
       app selector is_success downloads_dir]).

Ltac split_oracle :=
  match goal with
  | |- context [YouTube ?P ?u ?b] => destruct (YouTube P u b) as [?|[?|?]] eqn:?
  | |- context [title ?P ?y] => destruct (title P y) eqn:?
  | |- context [py_eq_str ?ft ?s] => destruct (py_eq_str ft s) eqn:?
  | |- context [streams_get_audio_only ?P ?y] =>
      destruct (streams_get_audio_only P y) as [[?|]|?] eqn:?
  | |- context [streams_get_highest_resolution ?P ?y] =>
      destruct (streams_get_highest_resolution P y) as [[?|]|?] eqn:?
  | |- context [download ?P ?x ?d ?f] =>
      destruct (download P x d f) as [[?|?] ?] eqn:?
  | |- context [os_path.splitext ?p] =>
      destruct (os_path.splitext p) as [? ?] eqn:?
  | |- context [isdir ?P ?p] => destruct (isdir P p) eqn:?
  | |- context [@lookup string _ _ _ ?p ?m] =>
      destruct (@lookup string _ _ _ p m) eqn:?
  end.

Ltac exec_all := exec; repeat (split_oracle; exec).

(* ===================================================================== *)
(** * Examples: the path functions and the handler on sample inputs *)
(* ===================================================================== *)

Example splitext_mp4 :
  os_path.splitext "/home/u/Downloads/My Song.mp4" = ("/home/u/Downloads/My Song", ".mp4").
Proof. reflexivity. Qed.

Example splitext_dotfile :
  os_path.splitext "/home/u/.bashrc" = ("/home/u/.bashrc", EmptyString).
Proof. reflexivity. Qed.

Example splitext_dotted_dir :
  os_path.splitext "/home/u.v/Downloads/clip" = ("/home/u.v/Downloads/clip", EmptyString).
Proof. reflexivity. Qed.

Example splitext_two_dots :
  os_path.splitext "a/b.tar.gz" = ("a/b.tar", ".gz").
Proof. reflexivity. Qed.

Example join_home :
  os_path.join "/home/u" "Downloads" = "/home/u/Downloads".
Proof. reflexivity. Qed.

Example dirname_ex :
  os_path.dirname "/home/u/Downloads/clip.mp4" = "/home/u/Downloads"
  /\ os_path.basename "/home/u/Downloads/clip.mp4" = "clip.mp4".
Proof. split; reflexivity. Qed.

(** The empty URL from the [mp3] button, event by event. *)
Example run_empty_url :
  downloadYouTubeVideo Sample.provider Sample.home Sample.empty_url (VStr "mp3")
    Sample.ret Sample.world
  = {| run_outcome := Returned VNone;
       run_world := {| w_fs := ∅; w_boolvars := {[Sample.ret := false]} |};
       run_events :=
         [LogInfo "Attempting to access URL.";
          CallYouTube EmptyString true;
          LogWarning "Unable to access YouTube URL of ";
          LogException (ExceptionInstance "RegexMatchError");
          LogError "The YouTube link could not be accessed.";
          ShowError "URL Error" "The URL is empty.";
          SetBooleanVar Sample.ret false] |}.
Proof. reflexivity. Qed.

(** A video request that goes through. *)
Example run_video :
  downloadYouTubeVideo Sample.provider Sample.home Sample.url (VStr "mp4")
    Sample.ret Sample.world
  = {| run_outcome := Returned (VBooleanVar Sample.ret);
       run_world :=
         {| w_fs := {["/home/u/Downloads/Clip.mp4" := Sample.bytes]};
            w_boolvars := {[Sample.ret := true]} |};
       run_events :=
         [LogInfo "Attempting to access URL.";
          CallYouTube "https://example.com/watch?v=abc" true;
          LogInfo "URL access successful. Video has been found.";
          LogInfo "The video's title is Clip";
          LogInfo "Accessing highest quality video stream.";
          CallGetHighestResolution 7;
          LogInfo "Stream data is <Stream>";
          LogInfo "Starting download of stream at https://example.com/watch?v=abc";
          CallDownload 2 "/home/u/Downloads";
          DownloadReturned "/home/u/Downloads/Clip.mp4";
          LogInfo "Finished download of stream at https://example.com/watch?v=abc";
          SetBooleanVar Sample.ret true;
          ShowInfo "Download Successful" "The content was successfully downloaded."] |}.
Proof. reflexivity. Qed.

(** An audio request onto a disk that holds an older [Clip.mp3]: the old
    file is removed and the download takes its name. *)
Example run_audio_overwrite :
  let r := downloadYouTubeVideo Sample.provider Sample.home Sample.url (VStr "mp3")
             Sample.ret Sample.world_with_mp3 in
  run_outcome r = Returned (VBooleanVar Sample.ret)
  ∧ w_fs (run_world r) = {["/home/u/Downloads/Clip.mp3" := Sample.bytes]}
  ∧ os_calls (run_events r)
    = [OsRemove "/home/u/Downloads/Clip.mp3";
       OsRename "/home/u/Downloads/Clip.mp4" "/home/u/Downloads/Clip.mp3"].
Proof. repeat split. Qed.

(** A provider that stores its audio as [Clip.mp3] already: the handler
    takes the fresh download for an older file, removes it, and the rename
    finds nothing to move. *)
Example run_native_mp3 :
  let r := downloadYouTubeVideo Sample.native_mp3 Sample.home Sample.url (VStr "mp3")
             Sample.ret Sample.world in
  run_outcome r = Raised FileNotFoundError
  ∧ w_fs (run_world r) = ∅
  ∧ os_calls (run_events r)
    = [OsRemove "/home/u/Downloads/Clip.mp3";
       OsRename "/home/u/Downloads/Clip.mp3" "/home/u/Downloads/Clip.mp3"]
  ∧ dialogs (run_events r) = []
  ∧ boolvar_assignments (run_events r) = [].
Proof. repeat split. Qed.

(** No audio-only stream: [stream] is [None] and [stream.download] raises
    outside every [try]. *)
Example run_no_audio :
  let r := downloadYouTubeVideo Sample.no_audio Sample.home Sample.url (VStr "mp3")
             Sample.ret Sample.world in
  run_outcome r = Raised AttributeError
  ∧ download_calls (run_events r) = []
  ∧ dialogs (run_events r) = [].
Proof. repeat split. Qed.

(** An unreadable title raises inside the [finally] clause, past the
    [except] clause. *)
Example run_title_unreadable :
  let r := downloadYouTubeVideo Sample.title_unreadable Sample.home Sample.url
             (VStr "mp3") Sample.ret Sample.world in
  run_outcome r = Raised (ExceptionInstance "PytubeError")
  ∧ dialogs (run_events r) = [].
Proof. repeat split. Qed.

(** An exception that is not an [Exception] passes the [except] clause; the
    [finally] clause then reads [yt], which was never bound. *)
Example run_interrupted :
  let r := downloadYouTubeVideo Sample.interrupted Sample.home Sample.url
             (VStr "mp3") Sample.ret Sample.world in
  run_outcome r = Raised UnboundLocalError
  ∧ dialogs (run_events r) = [].
Proof. repeat split. Qed.

(* ===================================================================== *)
(** * Facts about strings and paths *)
(* ===================================================================== *)

Section StrFacts.
Implicit Types (s a b : string) (c x : ascii) (n : nat).

Lemma str_app_String x a b : String x a +:+ b = String x (a +:+ b).
Proof. reflexivity. Qed.

Lemma str_app_empty_l b : EmptyString +:+ b = b.
Proof. reflexivity. Qed.

Lemma str_app_empty_r a : a +:+ EmptyString = a.
Proof. induction a as [|x a IH]; [done|]. by rewrite str_app_String, IH. Qed.


Lemma str_take_drop n s : str.take n s +:+ str.drop n s = s.
Proof.
  revert s; induction n as [|n IH]; intros [|x s]; simpl; try reflexivity.
  rewrite str_app_String. f_equal. apply IH.
Qed.

Lemma str_length_take n s : n ≤ String.length s → String.length (str.take n s) = n.
Proof.
  revert s; induction n as [|n IH]; intros [|x s]; simpl; intros; try lia.
  rewrite IH; lia.
Qed.

Lemma str_take_app_le n a b : n ≤ String.length a → str.take n (a +:+ b) = str.take n a.
Proof.
  revert a; induction n as [|n IH]; intros [|x a]; simpl; intros; try lia.
  - by destruct b.
  - reflexivity.
  - rewrite ?str_app_String; simpl. rewrite IH; [done|lia].
Qed.

Lemma str_drop_app_le n a b :
  n ≤ String.length a → str.drop n (a +:+ b) = str.drop n a +:+ b.
Proof.
  revert a; induction n as [|n IH]; intros [|x a]; simpl; intros; try lia.
  - by destruct b.
  - reflexivity.
  - rewrite ?str_app_String; simpl. rewrite IH; [done|lia].
Qed.

Lemma str_drop_ge n s : String.length s ≤ n → str.drop n s = EmptyString.
Proof.
  revert s; induction n as [|n IH]; intros [|x s]; simpl; intros; try lia; try done.
  apply IH; lia.
Qed.


Lemma rfind_range c s : (-1 ≤ str.rfind c s < Z.of_nat (String.length s))%Z.
Proof.
  induction s as [|x s IH]; simpl; [lia|].
  destruct (Z.leb_spec 0 (str.rfind c s)); [lia|].
  destruct (Ascii.eqb x c); lia.
Qed.

Lemma rfind_app c a b :
  str.rfind c (a +:+ b) =
  if (0 <=? str.rfind c b)%Z then (Z.of_nat (String.length a) + str.rfind c b)%Z
  else str.rfind c a.
Proof.
  induction a as [|x a IH].
  - rewrite str_app_empty_l; simpl. destruct (Z.leb_spec 0 (str.rfind c b)); [lia|].
    pose proof (rfind_range c b); lia.
  - rewrite str_app_String; simpl. rewrite IH. destruct (Z.leb_spec 0 (str.rfind c b)).
    + destruct (Z.leb_spec 0 (Z.of_nat (String.length a) + str.rfind c b)); lia.
    + reflexivity.
Qed.

(** Past the last occurrence of [c] there is none. *)
Lemma rfind_drop_past c n s :
  (str.rfind c s < Z.of_nat n)%Z → str.rfind c (str.drop n s) = (-1)%Z.
Proof.
  intros Hlt. pose proof (rfind_range c (str.drop n s)) as Hr.
  destruct (decide (n ≤ String.length s)) as [Hn|Hn].
  - pose proof (rfind_app c (str.take n s) (str.drop n s)) as Happ.
    rewrite str_take_drop, str_length_take in Happ by done.
    destruct (Z.leb_spec 0 (str.rfind c (str.drop n s))); lia.
  - rewrite str_drop_ge by lia. reflexivity.
Qed.

Lemma rfind_take_past c n s :
  (str.rfind c s < Z.of_nat n)%Z → str.rfind c (str.take n s) = str.rfind c s.
Proof.
  intros Hlt. pose proof (rfind_app c (str.take n s) (str.drop n s)) as Happ.
  rewrite str_take_drop, (rfind_drop_past c n s Hlt) in Happ. simpl in Happ. done.
Qed.

(** The suffix cut at the last [c] starts with that [c] and has no other. *)
Lemma rfind_drop_at c s :
  (0 ≤ str.rfind c s)%Z →
  str.rfind c (str.drop (Z.to_nat (str.rfind c s)) s) = 0%Z.
Proof.
  intros H0. set (n := Z.to_nat (str.rfind c s)).
  pose proof (rfind_range c s) as Hs.
  pose proof (rfind_range c (str.take n s)) as Ht.
  pose proof (rfind_app c (str.take n s) (str.drop n s)) as Happ.
  rewrite str_take_drop, str_length_take in Happ by lia.
  rewrite str_length_take in Ht by lia.
  destruct (Z.leb_spec 0 (str.rfind c (str.drop n s))); lia.
Qed.
End StrFacts.

Section PathFacts.
Implicit Types (p base ext : string).

Lemma splitext_cases p :
  os_path.splitext p = (p, EmptyString)
  ∨ ((str.rfind os_path.sep p < str.rfind os_path.extsep p)%Z
     ∧ os_path.splitext p =
         (str.take (Z.to_nat (str.rfind os_path.extsep p)) p,
          str.drop (Z.to_nat (str.rfind os_path.extsep p)) p)).
Proof.
  unfold os_path.splitext, os_path._splitext, str.slice_to, str.slice_from.
  destruct (Z.ltb_spec (str.rfind os_path.sep p) (str.rfind os_path.extsep p)); simpl.
  - destruct os_path.skip_leading_dots; [right; done|left].
    by destruct p.
  - left. by destruct p.
Qed.

Lemma splitext_spec p base ext :
  os_path.splitext p = (base, ext) →
  base +:+ ext = p
  ∧ str.rfind os_path.sep ext = (-1)%Z
  ∧ str.rfind os_path.sep base = str.rfind os_path.sep p
  ∧ (str.rfind os_path.sep p < Z.of_nat (String.length base))%Z
  ∧ (ext = EmptyString ∨ str.rfind os_path.extsep ext = 0%Z).
Proof.
  intros Hsp. destruct (splitext_cases p) as [Hc|[Hlt Hc]];
    rewrite Hc in Hsp; injection Hsp as <- <-.
  - rewrite str_app_empty_r. pose proof (rfind_range os_path.sep p). repeat split; auto; lia.
  - pose proof (rfind_range os_path.sep p) as Hs.
    pose proof (rfind_range os_path.extsep p) as Hd.
    rewrite str_take_drop, rfind_drop_past, rfind_take_past, str_length_take, rfind_drop_at by lia.
    repeat split; auto; lia.
Qed.






End PathFacts.

(** The comparison [fileType == "mp3"] holds for that string alone. *)
Lemma py_eq_str_mp3 v : py_eq_str v "mp3" = true ↔ v = VStr "mp3".
Proof.
  destruct v; simpl; try (split; [discriminate|congruence]).
  rewrite String.eqb_eq. split; congruence.
Qed.

Lemma py_eq_str_not_mp3 v : v ≠ VStr "mp3" → py_eq_str v "mp3" = false.
Proof.
  intros Hne. destruct (py_eq_str v "mp3") eqn:E; [|done].
  by apply py_eq_str_mp3 in E.
Qed.


(** Removing the target before a rename onto it changes nothing in the end. *)
Lemma insert_delete_delete (m : FS) k j v :
  <[k := v]> (delete j (delete k m)) = <[k := v]> (delete j m).
Proof.
  apply map_eq; intros i.
  destruct (decide (i = k)) as [->|Hk]; [by rewrite !lookup_insert_eq|].
  rewrite !lookup_insert_ne by done.
  destruct (decide (i = j)) as [->|Hj]; [by rewrite !lookup_delete_eq|].
  by rewrite !lookup_delete_ne.
Qed.

(* ===================================================================== *)
(** * The failure paths *)
(* ===================================================================== *)

(** The run of a request whose URL the provider rejects, event by event. *)
Lemma run_url_rejected P home url fileType ret w e :
  YouTube P (StringVar_get url) true = Err e →
  isinstance_Exception e = true →
  downloadYouTubeVideo P home url fileType ret w =
    {| run_outcome := Returned VNone;
       run_world := {| w_fs := w_fs w; w_boolvars := <[ret := false]> (w_boolvars w) |};
       run_events :=
         [LogInfo "Attempting to access URL.";
          CallYouTube (StringVar_get url) true;
          LogWarning ("Unable to access YouTube URL of " +:+ StringVar_get url);
          LogException e;
          LogError "The YouTube link could not be accessed.";
          ShowError GUI_ERROR_URL_TITLE
            (if String.eqb (StringVar_get url) EmptyString then GUI_ERROR_URL_TEXT_EMPTY
             else GUI_ERROR_URL_TEXT_INVALID);
          SetBooleanVar ret false] |}.
Proof.
  intros HY He. exec. rewrite HY. exec. destruct e; [reflexivity|discriminate].
Qed.

(** The run of a request whose resolution raises outside class
    [Exception]: the [finally] clause reads the unbound [yt]. *)
Lemma run_url_masked P home url fileType ret w e :
  YouTube P (StringVar_get url) true = Err e →
  isinstance_Exception e = false →
  downloadYouTubeVideo P home url fileType ret w =
    {| run_outcome := Raised UnboundLocalError;
       run_world := w;
       run_events := [LogInfo "Attempting to access URL.";
                      CallYouTube (StringVar_get url) true] |}.
Proof.
  intros HY He. exec. rewrite HY. exec.
  destruct e; [discriminate|]. by destruct w.
Qed.

(** The run of a request whose video object cannot tell its title. *)
Lemma run_title_raises P home url fileType ret w y e :
  YouTube P (StringVar_get url) true = Ok y →
  title P y = Err e →
  downloadYouTubeVideo P home url fileType ret w =
    {| run_outcome := Raised e;
       run_world := w;
       run_events :=
         [LogInfo "Attempting to access URL.";
          CallYouTube (StringVar_get url) true;
          LogInfo "URL access successful. Video has been found."] |}.
Proof.
  intros HY HT. exec. rewrite HY. exec. rewrite HT. by destruct w.
Qed.

(** The run of a request whose stream selection raises, event by event. *)
Lemma run_selection_raises P home url fileType ret w y t e :
  YouTube P (StringVar_get url) true = Ok y →
  title P y = Ok t →
  selector P fileType y = Err e →
  downloadYouTubeVideo P home url fileType ret w =
    {| run_outcome := Returned VNone;
       run_world := {| w_fs := w_fs w; w_boolvars := <[ret := false]> (w_boolvars w) |};
       run_events :=
         [LogInfo "Attempting to access URL.";
          CallYouTube (StringVar_get url) true;
          LogInfo "URL access successful. Video has been found.";
          LogInfo ("The video's title is " +:+ t);
          LogInfo (if py_eq_str fileType "mp3"
                   then "Accessing highest quality audio stream."
                   else "Accessing highest quality video stream.");
          (if py_eq_str fileType "mp3" then CallGetAudioOnly y
           else CallGetHighestResolution y);
          LogError "The YouTube video is age restricted and cannot be downloaded.";
          ShowError GUI_ERROR_AGE_TITLE GUI_ERROR_AGE_TEXT;
          SetBooleanVar ret false] |}.
Proof.
  intros HY HT HS. unfold selector in HS. exec. rewrite HY. exec. rewrite HT. exec.
  destruct (py_eq_str fileType "mp3"); exec; rewrite HS; reflexivity.
Qed.

(** The run of a request for which the selector returns [None]: nothing is
    raised until [stream.download] is looked up on [None]. *)
Lemma run_no_stream P home url fileType ret w y t :
  YouTube P (StringVar_get url) true = Ok y →
  title P y = Ok t →
  selector P fileType y = Ok None →
  downloadYouTubeVideo P home url fileType ret w =
    {| run_outcome := Raised AttributeError;
       run_world := w;
       run_events :=
         [LogInfo "Attempting to access URL.";
          CallYouTube (StringVar_get url) true;
          LogInfo "URL access successful. Video has been found.";
          LogInfo ("The video's title is " +:+ t);
          LogInfo (if py_eq_str fileType "mp3"
                   then "Accessing highest quality audio stream."
                   else "Accessing highest quality video stream.");
          (if py_eq_str fileType "mp3" then CallGetAudioOnly y
           else CallGetHighestResolution y);
          LogInfo "Stream data is None";
          LogInfo ("Starting download of stream at " +:+ StringVar_get url)] |}.
Proof.
  intros HY HT HS. unfold selector in HS. destruct w as [f bv].
  exec. rewrite HY. exec. rewrite HT. exec.
  destruct (py_eq_str fileType "mp3"); exec; rewrite HS; reflexivity.
Qed.

(** The run of a request whose download raises: the exception leaves the
    handler as it is, after the provider did to the disk what it did. *)
Lemma run_download_raises P home url fileType ret w y t x e f :
  YouTube P (StringVar_get url) true = Ok y →
  title P y = Ok t →
  selector P fileType y = Ok (Some x) →
  download P x (downloads_dir home) (w_fs w) = (Err e, f) →
  run_outcome (downloadYouTubeVideo P home url fileType ret w) = Raised e
  ∧ run_world (downloadYouTubeVideo P home url fileType ret w) =
      {| w_fs := f; w_boolvars := w_boolvars w |}
  ∧ dialogs (run_events (downloadYouTubeVideo P home url fileType ret w)) = []
  ∧ boolvar_assignments (run_events (downloadYouTubeVideo P home url fileType ret w)) = [].
Proof.
  intros HY HT HS HD. unfold selector in HS. unfold downloads_dir in HD.
  exec. rewrite HY. exec. rewrite HT. exec.
  destruct (py_eq_str fileType "mp3"); exec; rewrite HS; exec; rewrite HD;
    repeat split.
Qed.

(** The error kind of the URL dialog. *)
Lemma errorKind_of_url_dialog u :
  errorKind_of_dialog
    (ShowError GUI_ERROR_URL_TITLE
       (if String.eqb u EmptyString then GUI_ERROR_URL_TEXT_EMPTY
        else GUI_ERROR_URL_TEXT_INVALID))
  = Some (if String.eqb u EmptyString then URL_EMPTY else URL_INVALID).
Proof. by destruct (String.eqb u EmptyString). Qed.

(** C1, as amended.  When the provider rejects the URL (the call
    [YouTube(url = ..., use_oauth = True)] raises an exception of class
    [Exception]), the handler returns [None] after one error dialog and one
    [ret.set(False)]: the failure result has [errorKind = URL_EMPTY] when
    the submitted string is empty and [URL_INVALID] for every other string,
    and nothing on disk changes; the empty URL, when rejected, yields
    [URL_EMPTY] from either button.  A result with one of these two error
    kinds is produced in no other case.  A resolution failure of another
    form produces no result at all: an exception outside class [Exception]
    is replaced by [UnboundLocalError], and an exception raised when the
    title is read leaves the handler as it is; either way no dialog is
    shown and the holder is not assigned. *)
Theorem rejected_url_reports_url_error P home url fileType ret w :
  let r := downloadYouTubeVideo P home url fileType ret w in
  (∀ e, YouTube P (StringVar_get url) true = Err e →
        isinstance_Exception e = true →
        run_outcome r = Returned VNone
        ∧ DownloadResult_of ret r =
            Some {| success := false; filePath := None;
                    errorKind := Some (if String.eqb (StringVar_get url) EmptyString
                                       then URL_EMPTY else URL_INVALID) |}
        ∧ dialogs (run_events r) =
            [ShowError GUI_ERROR_URL_TITLE
               (if String.eqb (StringVar_get url) EmptyString
                then GUI_ERROR_URL_TEXT_EMPTY else GUI_ERROR_URL_TEXT_INVALID)]
        ∧ boolvar_assignments (run_events r) = [(ret, false)]
        ∧ run_world r =
            {| w_fs := w_fs w; w_boolvars := <[ret := false]> (w_boolvars w) |}
        ∧ (StringVar_get url = EmptyString →
           ∀ kind,
             errorKind <$> DownloadResult_of ret (button_command P home url ret kind w)
             = Some (Some URL_EMPTY)))
  ∧ ((∃ res, DownloadResult_of ret r = Some res
             ∧ (errorKind res = Some URL_EMPTY ∨ errorKind res = Some URL_INVALID)) →
     ∃ e, YouTube P (StringVar_get url) true = Err e
          ∧ isinstance_Exception e = true)
  ∧ (∀ e, YouTube P (StringVar_get url) true = Err e →
          isinstance_Exception e = false →
          run_outcome r = Raised UnboundLocalError
          ∧ DownloadResult_of ret r = None
          ∧ dialogs (run_events r) = []
          ∧ boolvar_assignments (run_events r) = []
          ∧ run_world r = w)
  ∧ (∀ y e, YouTube P (StringVar_get url) true = Ok y →
            title P y = Err e →
            run_outcome r = Raised e
            ∧ DownloadResult_of ret r = None
            ∧ dialogs (run_events r) = []
            ∧ boolvar_assignments (run_events r) = []
            ∧ run_world r = w).
Proof.
  intros r. subst r. split; [|split; [|split]].
  - intros e HY He.
    assert (Hres : ∀ ft,
      DownloadResult_of ret (downloadYouTubeVideo P home url ft ret w) =
        Some {| success := false; filePath := None;
                errorKind := Some (if String.eqb (StringVar_get url) EmptyString
                                   then URL_EMPTY else URL_INVALID) |}).
    { intros ft. rewrite (run_url_rejected _ _ _ ft _ _ _ HY He).
      unfold DownloadResult_of; simpl.
      rewrite lookup_insert_eq; simpl.
      by destruct (String.eqb (StringVar_get url) EmptyString). }
    rewrite Hres, (run_url_rejected _ _ _ _ _ _ _ HY He). simpl. repeat split.
    intros Hempty kind. unfold button_command. rewrite Hres, Hempty. reflexivity.
  - unfold DownloadResult_of. exec_all.
    all: intros (res & Hres & Hk); try discriminate Hres.
    all: try (eexists; split; [reflexivity|reflexivity]).
    all: injection Hres as <-; simpl in Hk; destruct Hk as [Hk|Hk]; discriminate Hk.
  - intros e HY He. rewrite (run_url_masked _ _ _ _ _ _ _ HY He).
    repeat split.
  - intros y e HY HT. rewrite (run_title_raises _ _ _ _ _ _ _ _ HY HT).
    repeat split.
Qed.

(** C3.  When the URL resolves and the stream selection of the requested
    kind raises (any exception: the clause is a bare [except:]), the
    handler returns [None] after the age-restriction dialog and one
    [ret.set(False)]; the result is a failure with
    [errorKind = ACCESS_RESTRICTED]; the download is never called and the
    file system is the one the request started with. *)
Theorem selection_failure_reports_access_restricted
        P home url fileType ret w y t e :
  YouTube P (StringVar_get url) true = Ok y →
  title P y = Ok t →
  selector P fileType y = Err e →
  let r := downloadYouTubeVideo P home url fileType ret w in
  run_outcome r = Returned VNone
  ∧ DownloadResult_of ret r =
      Some {| success := false; filePath := None;
              errorKind := Some ACCESS_RESTRICTED |}
  ∧ dialogs (run_events r) = [ShowError GUI_ERROR_AGE_TITLE GUI_ERROR_AGE_TEXT]
  ∧ boolvar_assignments (run_events r) = [(ret, false)]
  ∧ download_calls (run_events r) = []
  ∧ os_calls (run_events r) = []
  ∧ w_fs (run_world r) = w_fs w.
Proof.
  intros HY HT HS r. subst r.
  rewrite (run_selection_raises _ _ _ _ _ _ _ _ _ HY HT HS).
  unfold DownloadResult_of; simpl. rewrite lookup_insert_eq; simpl.
  destruct (py_eq_str fileType "mp3"); repeat split.
Qed.

(** The downloaded file is its own rename target exactly when its
    extension is [.mp3] already. *)
Lemma mp3_path_fixed outFile :
  mp3_path outFile = outFile ↔ extension outFile = ".mp3".
Proof.
  unfold mp3_path, extension.
  destruct (os_path.splitext outFile) as [base ext] eqn:Hsp; simpl.
  destruct (splitext_spec _ _ _ Hsp) as (Happ & _).
  rewrite <- Happ. split.
  - intros H. by apply (String.app_inj base) in H.
  - by intros ->.
Qed.

(** The run of an audio request whose rename raises: the downloaded file
    is named [<name>.mp3] already, so that the handler removes it before
    the rename looks for it; or a directory stands at the rename target.
    Nothing in the handler catches either exception. *)
Lemma run_audio_rename_raises P home url ret w y t x outFile f bytes :
  YouTube P (StringVar_get url) true = Ok y →
  title P y = Ok t →
  streams_get_audio_only P y = Ok (Some x) →
  download P x (downloads_dir home) (w_fs w) = (Ok outFile, f) →
  f !! outFile = Some bytes →
  let r := downloadYouTubeVideo P home url (VStr "mp3") ret w in
  (extension outFile = ".mp3" →
   run_outcome r = Raised FileNotFoundError
   ∧ dialogs (run_events r) = []
   ∧ boolvar_assignments (run_events r) = []
   ∧ w_fs (run_world r) = delete outFile f)
  ∧ (outFile ≠ mp3_path outFile →
     isdir P (mp3_path outFile) = true →
     run_outcome r = Raised IsADirectoryError
     ∧ dialogs (run_events r) = []
     ∧ boolvar_assignments (run_events r) = []
     ∧ w_fs (run_world r) !! outFile = Some bytes).
Proof.
  intros HY HT HS HD Hf r. subst r. split.
  - intros Hext. apply mp3_path_fixed in Hext.
    unfold mp3_path, downloads_dir in *.
    destruct (os_path.splitext outFile) as [base ext] eqn:Hsp; simpl in *.
    exec. rewrite HY. exec. rewrite HT. exec. rewrite HS. exec. rewrite HD. exec.
    rewrite Hsp. exec. rewrite Hext, Hf. exec. rewrite Hf. exec.
    rewrite lookup_delete_eq. exec. repeat split.
  - intros Hne Hdir. unfold mp3_path, downloads_dir in *.
    destruct (os_path.splitext outFile) as [base ext] eqn:Hsp; simpl in *.
    exec. rewrite HY. exec. rewrite HT. exec. rewrite HS. exec. rewrite HD. exec.
    rewrite Hsp. exec.
    destruct (f !! (base +:+ ".mp3")) as [old|] eqn:Hnew; exec.
    + rewrite Hnew. exec. rewrite lookup_delete_ne, Hf by done. exec.
      rewrite Hdir. exec. repeat split. simpl. by rewrite lookup_delete_ne.
    + rewrite Hf. exec. rewrite Hdir. exec. repeat split. done.
Qed.

(** C4, as amended.  Two failures are caught where they arise and turned
    into one modal error dialog, with nothing but log lines between the
    failing call and the dialog; the handler then sets the holder to
    [False] and returns [None]: an exception of class [Exception] raised
    by [YouTube(...)] (the URL dialog), and any exception raised by the
    stream-selection call (the age-restriction dialog).  Every other
    failure leaves [downloadYouTubeVideo] as an exception, with no dialog:
    an exception outside class [Exception] from [YouTube(...)] (replaced by
    [UnboundLocalError]), an exception from reading the title, a selector
    that returns [None] ([AttributeError] at [stream.download]), an
    exception raised by the download, which has no handler around it, and
    an exception raised by [os.rename] in the audio rename
    ([FileNotFoundError] when the download is named [<name>.mp3] already,
    [IsADirectoryError] when [<name>.mp3] is a directory). *)
Theorem resolution_and_selection_failures_are_caught
        P home url fileType ret w :
  let r := downloadYouTubeVideo P home url fileType ret w in
  (∀ e, YouTube P (StringVar_get url) true = Err e →
        isinstance_Exception e = true →
        run_outcome r = Returned VNone
        ∧ run_events r =
            [LogInfo "Attempting to access URL.";
             CallYouTube (StringVar_get url) true;
             LogWarning ("Unable to access YouTube URL of " +:+ StringVar_get url);
             LogException e;
             LogError "The YouTube link could not be accessed.";
             ShowError GUI_ERROR_URL_TITLE
               (if String.eqb (StringVar_get url) EmptyString
                then GUI_ERROR_URL_TEXT_EMPTY else GUI_ERROR_URL_TEXT_INVALID);
             SetBooleanVar ret false])
  ∧ (∀ y t e, YouTube P (StringVar_get url) true = Ok y →
              title P y = Ok t →
              selector P fileType y = Err e →
              run_outcome r = Returned VNone
              ∧ run_events r =
                  [LogInfo "Attempting to access URL.";
                   CallYouTube (StringVar_get url) true;
                   LogInfo "URL access successful. Video has been found.";
                   LogInfo ("The video's title is " +:+ t);
                   LogInfo (if py_eq_str fileType "mp3"
                            then "Accessing highest quality audio stream."
                            else "Accessing highest quality video stream.");
                   (if py_eq_str fileType "mp3" then CallGetAudioOnly y
                    else CallGetHighestResolution y);
                   LogError
                     "The YouTube video is age restricted and cannot be downloaded.";
                   ShowError GUI_ERROR_AGE_TITLE GUI_ERROR_AGE_TEXT;
                   SetBooleanVar ret false])
  ∧ (∀ e, YouTube P (StringVar_get url) true = Err e →
          isinstance_Exception e = false →
          run_outcome r = Raised UnboundLocalError
          ∧ dialogs (run_events r) = [])
  ∧ (∀ y e, YouTube P (StringVar_get url) true = Ok y →
            title P y = Err e →
            run_outcome r = Raised e
            ∧ dialogs (run_events r) = [])
  ∧ (∀ y t, YouTube P (StringVar_get url) true = Ok y →
            title P y = Ok t →
            selector P fileType y = Ok None →
            run_outcome r = Raised AttributeError
            ∧ dialogs (run_events r) = [])
  ∧ (∀ y t x e f,
       YouTube P (StringVar_get url) true = Ok y →
       title P y = Ok t →
       selector P fileType y = Ok (Some x) →
       download P x (downloads_dir home) (w_fs w) = (Err e, f) →
       run_outcome r = Raised e
       ∧ dialogs (run_events r) = [])
  ∧ (∀ y t x outFile f bytes,
       fileType = VStr "mp3" →
       YouTube P (StringVar_get url) true = Ok y →
       title P y = Ok t →
       streams_get_audio_only P y = Ok (Some x) →
       download P x (downloads_dir home) (w_fs w) = (Ok outFile, f) →
       f !! outFile = Some bytes →
       (extension outFile = ".mp3" →
        run_outcome r = Raised FileNotFoundError
        ∧ dialogs (run_events r) = [])
       ∧ (outFile ≠ mp3_path outFile →
          isdir P (mp3_path outFile) = true →
          run_outcome r = Raised IsADirectoryError
          ∧ dialogs (run_events r) = [])).
Proof.
  intros r. subst r. repeat apply conj.
  - intros e HY He. by rewrite (run_url_rejected _ _ _ _ _ _ _ HY He).
  - intros y t e HY HT HS.
    by rewrite (run_selection_raises _ _ _ _ _ _ _ _ _ HY HT HS).
  - intros e HY He. by rewrite (run_url_masked _ _ _ _ _ _ _ HY He).
  - intros y e HY HT. by rewrite (run_title_raises _ _ _ _ _ _ _ _ HY HT).
  - intros y t HY HT HS. rewrite (run_no_stream _ _ _ _ _ _ _ _ HY HT HS).
    by destruct (py_eq_str fileType "mp3").
  - intros y t x e f HY HT HS HD.
    destruct (run_download_raises P home url fileType ret w y t x e f HY HT HS HD)
      as (Ho & _ & Hd & _).
    by split.
  - intros y t x outFile f bytes -> HY HT HS HD Hf.
    destruct (run_audio_rename_raises P home url ret w y t x outFile f bytes
                HY HT HS HD Hf) as [Hmp3 Hdir].
    split.
    + intros Hext. by destruct (Hmp3 Hext) as (Ho & Hd & _).
    + intros Hne Hisdir. by destruct (Hdir Hne Hisdir) as (Ho & Hd & _).
Qed.

(* ===================================================================== *)
(** * The success paths *)
(* ===================================================================== *)

(** What a successful call tells about the collaborators: the URL resolved,
    the title was readable, the selector of the requested kind returned a
    stream, and the download returned a path; on the audio branch the
    downloaded file was found under a name other than the rename target,
    and the target was no directory. *)
Lemma success_inv P home url fileType ret w :
  is_success ret (downloadYouTubeVideo P home url fileType ret w) →
  ∃ y t x outFile f,
    YouTube P (StringVar_get url) true = Ok y
    ∧ title P y = Ok t
    ∧ selector P fileType y = Ok (Some x)
    ∧ download P x (downloads_dir home) (w_fs w) = (Ok outFile, f)
    ∧ (py_eq_str fileType "mp3" = true →
       outFile ≠ mp3_path outFile ∧ is_Some (f !! outFile)
       ∧ isdir P (mp3_path outFile) = false).
Proof.
  exec_all. all: try (intros Hs; discriminate Hs).
  all: intros _; eexists _, _, _, _, _.
  all: do 4 (split; [first [reflexivity | eassumption]|]).
  all: intros Hmp3; try discriminate Hmp3; unfold mp3_path.
  all: match goal with H : os_path.splitext _ = _ |- _ => rewrite H; simpl end.
  - match goal with H : delete _ _ !! _ = Some _ |- _ =>
      apply lookup_delete_Some in H as [? ?] end.
    split; [congruence|]. split; [eauto|done].
  - split; [congruence|]. split; [eauto|done].
Qed.

(** The run of a video request that goes through, event by event. *)
Lemma run_video_ok P home url fileType ret w y t x outFile f :
  py_eq_str fileType "mp3" = false →
  YouTube P (StringVar_get url) true = Ok y →
  title P y = Ok t →
  streams_get_highest_resolution P y = Ok (Some x) →
  download P x (downloads_dir home) (w_fs w) = (Ok outFile, f) →
  downloadYouTubeVideo P home url fileType ret w =
    {| run_outcome := Returned (VBooleanVar ret);
       run_world := {| w_fs := f; w_boolvars := <[ret := true]> (w_boolvars w) |};
       run_events :=
         [LogInfo "Attempting to access URL.";
          CallYouTube (StringVar_get url) true;
          LogInfo "URL access successful. Video has been found.";
          LogInfo ("The video's title is " +:+ t);
          LogInfo "Accessing highest quality video stream.";
          CallGetHighestResolution y;
          LogInfo ("Stream data is " +:+ str_stream P x);
          LogInfo ("Starting download of stream at " +:+ StringVar_get url);
          CallDownload x (downloads_dir home);
          DownloadReturned outFile;
          LogInfo ("Finished download of stream at " +:+ StringVar_get url);
          SetBooleanVar ret true;
          ShowInfo GUI_INFO_SUCCESS_TITLE GUI_INFO_SUCCESS_TEXT] |}.
Proof.
  intros Hft HY HT HS HD. unfold downloads_dir in *.
  exec. rewrite HY. exec. rewrite HT. exec. rewrite Hft. exec. rewrite HS. exec.
  rewrite HD. reflexivity.
Qed.

(** The run of an audio request that goes through: the provider left the
    file at [outFile], that name is not already the rename target, and the
    target is no directory. *)
Lemma run_audio_ok P home url ret w y t x outFile f bytes :
  YouTube P (StringVar_get url) true = Ok y →
  title P y = Ok t →
  streams_get_audio_only P y = Ok (Some x) →
  download P x (downloads_dir home) (w_fs w) = (Ok outFile, f) →
  f !! outFile = Some bytes →
  outFile ≠ mp3_path outFile →
  isdir P (mp3_path outFile) = false →
  let r := downloadYouTubeVideo P home url (VStr "mp3") ret w in
  run_outcome r = Returned (VBooleanVar ret)
  ∧ run_world r =
      {| w_fs := <[mp3_path outFile := bytes]> (delete outFile f);
         w_boolvars := <[ret := true]> (w_boolvars w) |}
  ∧ os_calls (run_events r) =
      match f !! mp3_path outFile with
      | Some _ => [OsRemove (mp3_path outFile); OsRename outFile (mp3_path outFile)]
      | None => [OsRename outFile (mp3_path outFile)]
      end
  ∧ (is_Some (f !! mp3_path outFile) →
     LogWarning "Overwriting file with identical name." ∈ run_events r)
  ∧ OsRename outFile (mp3_path outFile) ∈ before_result (run_events r)
  ∧ final_path (run_events r) = Some (mp3_path outFile)
  ∧ download_calls (run_events r) = [(x, downloads_dir home)]
  ∧ dialogs (run_events r) = [ShowInfo GUI_INFO_SUCCESS_TITLE GUI_INFO_SUCCESS_TEXT]
  ∧ boolvar_assignments (run_events r) = [(ret, true)]
  ∧ DownloadReturned outFile ∈ run_events r
  ∧ List.filter is_audio_selection (run_events r) = [CallGetAudioOnly y]
  ∧ List.filter is_video_selection (run_events r) = [].
Proof.
  intros HY HT HS HD Hf Hne Hdir r. subst r.
  unfold mp3_path, downloads_dir in *.
  destruct (os_path.splitext outFile) as [base ext] eqn:Hsp; simpl in *.
  exec. rewrite HY. exec. rewrite HT. exec. rewrite HS. exec. rewrite HD. exec.
  rewrite Hsp. exec.
  destruct (f !! (base +:+ ".mp3")) as [old|] eqn:Hnew; exec.
  - rewrite Hnew. exec. rewrite lookup_delete_ne, Hf by done. exec.
    rewrite Hdir. exec. rewrite insert_delete_delete.
    repeat split; simpl; try reflexivity; intros; set_solver.
  - rewrite Hf. exec. rewrite Hdir. exec.
    repeat split; simpl; try reflexivity; [intros []; discriminate|set_solver..].
Qed.


(** C5.  Let the provider answer the same request the same way: the
    download of the selected audio stream writes [bytes] at [outFile] and
    touches nothing else.  When a first audio request has succeeded, a
    second one for the same URL succeeds too: it finds the first run's
    [.mp3] file, removes it (logging the overwrite) and renames its own
    download onto the same path.  The file system after the second run is
    the one after the first: the [.mp3] file is there with the downloaded
    bytes, [outFile] is not, and no other path has changed. *)
Theorem repeated_audio_request_overwrites P home url ret w y x outFile bytes :
  YouTube P (StringVar_get url) true = Ok y →
  streams_get_audio_only P y = Ok (Some x) →
  (∀ f, download P x (downloads_dir home) f = (Ok outFile, <[outFile := bytes]> f)) →
  let r1 := button_command P home url ret AUDIO w in
  let r2 := button_command P home url ret AUDIO (run_world r1) in
  is_success ret r1 →
  is_success ret r2
  ∧ w_fs (run_world r2) = w_fs (run_world r1)
  ∧ w_fs (run_world r2) !! mp3_path outFile = Some bytes
  ∧ w_fs (run_world r2) !! outFile = None
  ∧ (∀ p, p ≠ outFile → p ≠ mp3_path outFile →
          w_fs (run_world r2) !! p = w_fs w !! p)
  ∧ os_calls (run_events r2) =
      [OsRemove (mp3_path outFile); OsRename outFile (mp3_path outFile)]
  ∧ LogWarning "Overwriting file with identical name." ∈ run_events r2.
Proof.
  intros HY HS Hdl r1 r2 Hs1. subst r1 r2. unfold button_command in *; simpl in *.
  destruct (success_inv _ _ _ _ _ _ Hs1)
    as (y' & t & x' & outFile' & f' & HY' & HT & HS' & HD' & Hmp3).
  change (selector P (VStr "mp3") y') with (streams_get_audio_only P y') in HS'.
  assert (y' = y) as -> by congruence.
  assert (x' = x) as -> by congruence.
  rewrite Hdl in HD'. injection HD' as <- <-.
  destruct (Hmp3 eq_refl) as (Hne & _ & Hdir). clear Hmp3 Hs1.
  destruct (run_audio_ok P home url ret w y t x outFile _ bytes
              HY HT HS (Hdl _) (lookup_insert_eq _ _ _) Hne Hdir)
    as (_ & Hw1 & _).
  rewrite delete_insert_eq in Hw1.
  set (w1 := run_world (downloadYouTubeVideo P home url (VStr "mp3") ret w)) in *.
  destruct (run_audio_ok P home url ret w1 y t x outFile _ bytes
              HY HT HS (Hdl _) (lookup_insert_eq _ _ _) Hne Hdir)
    as (Ho2 & Hw2 & Hos2 & Hwarn2 & _).
  rewrite delete_insert_eq in Hw2.
  assert (Hnew1 : w_fs w1 !! mp3_path outFile = Some bytes).
  { rewrite Hw1; simpl. apply lookup_insert_eq. }
  rewrite lookup_insert_ne, Hnew1 in Hos2, Hwarn2 by done.
  assert (Hfs : w_fs (run_world (downloadYouTubeVideo P home url (VStr "mp3") ret w1))
                = w_fs w1).
  { rewrite Hw2, Hw1; simpl. apply map_eq; intros i.
    destruct (decide (i = mp3_path outFile)) as [->|Hi]; [by rewrite !lookup_insert_eq|].
    rewrite !lookup_insert_ne by done.
    destruct (decide (i = outFile)) as [->|Hj]; [by rewrite !lookup_delete_eq|].
    by rewrite lookup_delete_ne, lookup_insert_ne by done. }
  assert (Hfs1 : w_fs w1 = <[mp3_path outFile := bytes]> (delete outFile (w_fs w)))
    by (by rewrite Hw1).
  split; [exact Ho2|]. split; [exact Hfs|].
  split; [by rewrite Hfs|].
  split; [by rewrite Hfs, Hfs1, lookup_insert_ne, lookup_delete_eq|].
  split; [intros p Hp1 Hp2; by rewrite Hfs, Hfs1, lookup_insert_ne, lookup_delete_ne|].
  split; [exact Hos2|]. apply Hwarn2. eauto.
Qed.

(** C6.  For a URL that resolves, with a combined stream on offer and a
    download that returns [outFile], the video request (the [mp4] button)
    selects the highest-resolution stream and succeeds without one call to
    [os.remove] or [os.rename]: the file system is exactly what the
    provider left, and the file of the request is [outFile] itself, under
    the name and extension the provider chose. *)
Theorem video_request_keeps_native_file P home url ret w y t x outFile f :
  YouTube P (StringVar_get url) true = Ok y →
  title P y = Ok t →
  streams_get_highest_resolution P y = Ok (Some x) →
  download P x (downloads_dir home) (w_fs w) = (Ok outFile, f) →
  let r := button_command P home url ret VIDEO w in
  is_success ret r
  ∧ os_calls (run_events r) = []
  ∧ List.filter is_audio_selection (run_events r) = []
  ∧ List.filter is_video_selection (run_events r) = [CallGetHighestResolution y]
  ∧ w_fs (run_world r) = f
  ∧ DownloadResult_of ret r =
      Some {| success := true; filePath := Some outFile; errorKind := None |}.
Proof.
  intros HY HT HS HD r. subst r. unfold button_command, is_success; simpl.
  rewrite (run_video_ok P home url (VStr "mp4") ret w y t x outFile f
             eq_refl HY HT HS HD).
  unfold DownloadResult_of; simpl. rewrite lookup_insert_eq. repeat split.
Qed.

(** The downloads folder of a home directory written without a trailing
    slash. *)
Lemma join_downloads home :
  home ≠ EmptyString → str.endswith home os_path.sep = false →
  os_path.join home "Downloads" = home +:+ "/Downloads".
Proof.
  intros Hne Hend. unfold os_path.join; simpl. rewrite Hend.
  by destruct home.
Qed.

(** Appending text without a separator changes the last component only. *)
Lemma split_app base x :
  str.rfind os_path.sep x = (-1)%Z →
  os_path.split (base +:+ x)
  = (fst (os_path.split base), snd (os_path.split base) +:+ x).
Proof.
  intros Hx. unfold os_path.split, str.slice_to, str.slice_from.
  rewrite rfind_app, Hx; simpl.
  pose proof (rfind_range os_path.sep base) as Hr.
  rewrite str_take_app_le, str_drop_app_le by lia.
  reflexivity.
Qed.

(** The rename target lies in the directory of the downloaded file. *)
Lemma dirname_mp3_path outFile :
  os_path.dirname (mp3_path outFile) = os_path.dirname outFile.
Proof.
  unfold mp3_path.
  destruct (os_path.splitext outFile) as [base ext] eqn:Hsp; simpl.
  destruct (splitext_spec _ _ _ Hsp) as (Happ & Hsep & _).
  unfold os_path.dirname. rewrite <- Happ.
  assert (Hmp3 : str.rfind os_path.sep ".mp3" = (-1)%Z) by reflexivity.
  by rewrite !split_app.
Qed.

(** C7.  Every successful request, whatever its [fileType], made exactly
    one download call, for the stream it selected, and its [output_path]
    was [os.path.join(Path.home(), 'Downloads')]: a directory that depends
    on the home directory only, not on the URL, the kind or the state of
    the disk ([<home>/Downloads] for a home directory written without a
    trailing slash).  The file name is the one the provider returned, and
    the disk after the request is the disk the provider's download left:
    unchanged for a video request; for an audio request with the
    downloaded file moved to its [.mp3] name in the same directory.  The
    file of the request holds what the provider stored.  So when the
    provider writes into the folder it was given and nowhere else, every
    path the request has changed lies in the downloads folder. *)
Theorem download_goes_to_downloads_folder P home url fileType ret w :
  let r := downloadYouTubeVideo P home url fileType ret w in
  let dir := os_path.join home "Downloads" in
  is_success ret r →
  ∃ y x outFile f,
    let p := if py_eq_str fileType "mp3" then mp3_path outFile else outFile in
    YouTube P (StringVar_get url) true = Ok y
    ∧ selector P fileType y = Ok (Some x)
    ∧ download_calls (run_events r) = [(x, dir)]
    ∧ download P x dir (w_fs w) = (Ok outFile, f)
    ∧ DownloadReturned outFile ∈ run_events r
    ∧ (home ≠ EmptyString → str.endswith home os_path.sep = false →
       dir = home +:+ "/Downloads")
    ∧ DownloadResult_of ret r =
        Some {| success := true; filePath := Some p; errorKind := None |}
    ∧ os_path.dirname p = os_path.dirname outFile
    ∧ w_fs (run_world r) !! p = f !! outFile
    ∧ (∀ q, q ≠ p → q ≠ outFile → w_fs (run_world r) !! q = f !! q)
    ∧ (py_eq_str fileType "mp3" = false → w_fs (run_world r) = f)
    ∧ (py_eq_str fileType "mp3" = true →
       ∃ bytes, f !! outFile = Some bytes
                ∧ w_fs (run_world r) = <[p := bytes]> (delete outFile f))
    ∧ ((∀ q, f !! q ≠ w_fs w !! q → os_path.dirname q = dir) →
       os_path.dirname outFile = dir →
       ∀ q, w_fs (run_world r) !! q ≠ w_fs w !! q → os_path.dirname q = dir).
Proof.
  intros r dir Hs. subst r dir.
  destruct (success_inv _ _ _ _ _ _ Hs)
    as (y & t & x & outFile & f & HY & HT & HS & HD & Hmp3).
  exists y, x, outFile, f. unfold downloads_dir in *.
  split; [exact HY|]. split; [exact HS|].
  unfold selector in HS.
  destruct (py_eq_str fileType "mp3") eqn:Hft.
  - apply py_eq_str_mp3 in Hft as ->.
    destruct (Hmp3 eq_refl) as (Hne & [bytes Hf] & Hdir).
    destruct (run_audio_ok P home url ret w y t x outFile f bytes
                HY HT HS HD Hf Hne Hdir)
      as (Ho & Hw & _ & _ & _ & Hfinal & Hcalls & Hdlg & _ & Hret & _).
    unfold DownloadResult_of. rewrite Ho, Hw, Hfinal, Hdlg, Hcalls; simpl.
    rewrite !lookup_insert_eq; simpl.
    split; [done|]. split; [done|]. split; [exact Hret|].
    split; [apply join_downloads|]. split; [done|].
    split; [apply dirname_mp3_path|]. split; [done|].
    split; [intros q Hq1 Hq2; by rewrite lookup_insert_ne, lookup_delete_ne|].
    split; [discriminate|]. split; [by exists bytes|].
    intros Hprov Hout q Hq.
    destruct (decide (q = mp3_path outFile)) as [->|Hq1];
      [by rewrite dirname_mp3_path|].
    destruct (decide (q = outFile)) as [->|Hq2]; [done|].
    rewrite lookup_insert_ne, lookup_delete_ne in Hq by done. by apply Hprov.
  - clear Hmp3.
    rewrite (run_video_ok P home url fileType ret w y t x outFile f
               Hft HY HT HS HD).
    unfold DownloadResult_of; simpl. rewrite lookup_insert_eq; simpl.
    split; [done|]. split; [done|]. split; [set_solver|].
    split; [apply join_downloads|]. split; [done|].
    split; [done|]. split; [done|]. split; [done|]. split; [done|].
    split; [discriminate|]. intros Hprov _ q Hq. by apply Hprov.
Qed.

(* ===================================================================== *)
(** * The branch on [fileType] and the result holder *)
(* ===================================================================== *)

(** C8.  A [fileType] other than the exact string ["mp3"] (["mp4"], another
    string, [None], a number, a Boolean) makes the handler behave in every
    respect as it does for ["mp4"]: it never asks for the audio-only
    stream and never calls [os.remove] or [os.rename]; once the URL has
    resolved and the title has been read it asks for the
    highest-resolution stream, and when that stream is there and its
    download returns, the request succeeds with the file and the disk as
    the provider left them.  Only ["mp3"] takes the audio branch: such a
    run never asks for the highest-resolution stream; once the URL has
    resolved and the title has been read it asks for the audio-only
    stream, and when that stream is there and its download returns, the
    handler calls [os.rename] to move the downloaded file to its [.mp3]
    name. *)
Theorem only_mp3_takes_audio_branch P home url ret w :
  (∀ fileType, fileType ≠ VStr "mp3" →
     let r := downloadYouTubeVideo P home url fileType ret w in
     r = downloadYouTubeVideo P home url (VStr "mp4") ret w
     ∧ List.filter is_audio_selection (run_events r) = []
     ∧ os_calls (run_events r) = []
     ∧ (∀ y t, YouTube P (StringVar_get url) true = Ok y →
               title P y = Ok t →
               List.filter is_video_selection (run_events r)
               = [CallGetHighestResolution y]
               ∧ ∀ x outFile f,
                   streams_get_highest_resolution P y = Ok (Some x) →
                   download P x (downloads_dir home) (w_fs w) = (Ok outFile, f) →
                   is_success ret r
                   ∧ w_fs (run_world r) = f
                   ∧ final_path (run_events r) = Some outFile))
  ∧ (let r := downloadYouTubeVideo P home url (VStr "mp3") ret w in
     List.filter is_video_selection (run_events r) = []
     ∧ (∀ y t, YouTube P (StringVar_get url) true = Ok y →
               title P y = Ok t →
               List.filter is_audio_selection (run_events r) = [CallGetAudioOnly y]
               ∧ ∀ x outFile f,
                   streams_get_audio_only P y = Ok (Some x) →
                   download P x (downloads_dir home) (w_fs w) = (Ok outFile, f) →
                   OsRename outFile (mp3_path outFile) ∈ run_events r
                   ∧ final_path (run_events r) = Some (mp3_path outFile))).
Proof.
  split.
  - intros fileType Hne r. subst r.
    assert (Hft := py_eq_str_not_mp3 _ Hne).
    assert (Heq : downloadYouTubeVideo P home url fileType ret w
                  = downloadYouTubeVideo P home url (VStr "mp4") ret w).
    { exec. rewrite Hft. reflexivity. }
    split; [exact Heq|].
    split; [rewrite Heq; exec_all; reflexivity|].
    split; [rewrite Heq; exec_all; reflexivity|].
    intros y t HY HT. split.
    + rewrite Heq. exec. rewrite HY. exec. rewrite HT. exec_all; reflexivity.
    + intros x outFile f HS HD. unfold is_success.
      by rewrite (run_video_ok P home url fileType ret w y t x outFile f
                    Hft HY HT HS HD).
  - intros r. subst r. split; [exec_all; reflexivity|].
    intros y t HY HT. split.
    + exec. rewrite HY. exec. rewrite HT. exec_all; reflexivity.
    + intros x outFile f HS HD. unfold mp3_path, downloads_dir in *.
      destruct (os_path.splitext outFile) as [base ext] eqn:Hsp; simpl.
      exec. rewrite HY. exec. rewrite HT. exec. rewrite HS. exec. rewrite HD. exec.
      rewrite Hsp. exec.
      destruct (f !! (base +:+ ".mp3")) as [old|] eqn:Hnew; exec.
      * rewrite Hnew. exec_all.
        all: split; [rewrite !elem_of_cons; auto 30|reflexivity].
      * exec_all.
        all: split; [rewrite !elem_of_cons; auto 30|reflexivity].
Qed.

(** C9.  When the handler returns, it has assigned the holder exactly once
    in that call.  Either it returns [None], the one assignment is
    [ret.set(False)] and the one dialog is one of the two error dialogs; or
    it returns the holder object itself (not the Boolean [True]), the one
    assignment is [ret.set(True)] and the one dialog is the success
    dialog.  The holder reads back the assigned value. *)
Theorem ret_assigned_once_on_return P home url fileType ret w v :
  run_outcome (downloadYouTubeVideo P home url fileType ret w) = Returned v →
  (v = VNone
   ∧ boolvar_assignments
       (run_events (downloadYouTubeVideo P home url fileType ret w)) = [(ret, false)]
   ∧ w_boolvars (run_world (downloadYouTubeVideo P home url fileType ret w)) !! ret
       = Some false
   ∧ ∃ a b, dialogs (run_events (downloadYouTubeVideo P home url fileType ret w))
              = [ShowError a b]
            ∧ ((a, b) = (GUI_ERROR_URL_TITLE,
                         if String.eqb (StringVar_get url) EmptyString
                         then GUI_ERROR_URL_TEXT_EMPTY
                         else GUI_ERROR_URL_TEXT_INVALID)
               ∨ (a, b) = (GUI_ERROR_AGE_TITLE, GUI_ERROR_AGE_TEXT)))
  ∨ (v = VBooleanVar ret
     ∧ v ≠ VBool true
     ∧ boolvar_assignments
         (run_events (downloadYouTubeVideo P home url fileType ret w)) = [(ret, true)]
     ∧ w_boolvars (run_world (downloadYouTubeVideo P home url fileType ret w)) !! ret
         = Some true
     ∧ dialogs (run_events (downloadYouTubeVideo P home url fileType ret w))
         = [ShowInfo GUI_INFO_SUCCESS_TITLE GUI_INFO_SUCCESS_TEXT]).
Proof.
  exec_all. all: intros Hr; try discriminate Hr.
  all: injection Hr as <-; simpl; rewrite lookup_insert_eq.
  all: first [ left; repeat split; eexists _, _; split; [reflexivity|]; auto; fail
             | right; repeat split; discriminate ].
Qed.

(* ===================================================================== *)
(** * The audio rename *)
(* ===================================================================== *)

(** C10.  The audio rename computes its target as
    [splitext(outFile)[0] + ".mp3"].  The two parts of [splitext] put
    together give [outFile] back, and the extension part holds no
    separator and is either empty or the text from the last dot on; so the
    target has the directory of [outFile] and the same file name up to the
    extension, which alone is replaced.  On the file system the step
    touches these two paths only: every other path keeps its content, the
    toolkit variables are untouched, and when the step completes the bytes
    found at [outFile] are at the target and [outFile] is gone. *)
Theorem rename_changes_only_extension (outFile : string) :
  let base := fst (os_path.splitext outFile) in
  let ext := snd (os_path.splitext outFile) in
  mp3_path outFile = base +:+ ".mp3"
  ∧ outFile = base +:+ ext
  ∧ str.rfind os_path.sep ext = (-1)%Z
  ∧ (ext = EmptyString ∨ str.rfind os_path.extsep ext = 0%Z)
  ∧ os_path.dirname (mp3_path outFile) = os_path.dirname outFile
  ∧ (∃ stem, os_path.basename outFile = stem +:+ ext
             ∧ os_path.basename (mp3_path outFile) = stem +:+ ".mp3")
  ∧ ∀ s, let '(c, s', t) := convert_to_mp3 outFile s in
         boolvars s' = boolvars s
         ∧ (∀ p, p ≠ outFile → p ≠ mp3_path outFile → fs s' !! p = fs s !! p)
         ∧ (∀ e, e ∈ os_calls t →
                 e = OsRemove (mp3_path outFile)
                 ∨ e = OsRename outFile (mp3_path outFile))
         ∧ (c = Normal tt →
            outFile ≠ mp3_path outFile
            ∧ is_Some (fs s !! outFile)
            ∧ fs s' !! mp3_path outFile = fs s !! outFile
            ∧ fs s' !! outFile = None).
Proof.
  unfold mp3_path.
  destruct (os_path.splitext outFile) as [base ext] eqn:Hsp; simpl.
  destruct (splitext_spec _ _ _ Hsp) as (Happ & Hsep & _ & _ & Hext).
  split; [reflexivity|]. split; [done|]. split; [done|]. split; [done|].
  assert (Hmp3 : str.rfind os_path.sep ".mp3" = (-1)%Z) by reflexivity.
  split; [|split].
  - unfold os_path.dirname. rewrite <- Happ.
    by rewrite !split_app.
  - exists (os_path.basename base). unfold os_path.basename.
    rewrite <- Happ. by rewrite !split_app.
  - intros [f d bv y x]. exec. rewrite Hsp. exec.
    destruct (f !! (base +:+ ".mp3")) as [old|] eqn:Hnew; exec.
    + rewrite Hnew. exec.
      destruct (delete (base +:+ ".mp3") f !! outFile) as [bytes|] eqn:Hout; exec.
      * apply lookup_delete_Some in Hout as [Hne Hout].
        destruct (d (base +:+ ".mp3")) eqn:Hd; exec.
        -- split; [done|].
           split; [intros p Hp1 Hp2; by rewrite lookup_delete_ne|].
           split; [intros e; simpl; rewrite ?elem_of_cons, ?elem_of_nil; tauto|].
           discriminate.
        -- split; [done|].
           split; [intros p Hp1 Hp2; by rewrite lookup_insert_ne, !lookup_delete_ne|].
           split; [intros e; simpl; rewrite ?elem_of_cons, ?elem_of_nil; tauto|].
           intros _.
           rewrite lookup_insert_eq, lookup_insert_ne, lookup_delete_eq, Hout by done.
           eauto.
      * split; [done|].
        split; [intros p Hp1 Hp2; by rewrite lookup_delete_ne|].
        split; [intros e; simpl; rewrite ?elem_of_cons, ?elem_of_nil; tauto|]. discriminate.
    + destruct (f !! outFile) as [bytes|] eqn:Hout; exec.
      * assert (Hne : outFile ≠ base +:+ ".mp3") by congruence.
        destruct (d (base +:+ ".mp3")) eqn:Hd; exec.
        -- split; [done|]. split; [done|].
           split; [intros e; simpl; rewrite ?elem_of_cons, ?elem_of_nil; tauto|].
           discriminate.
        -- split; [done|].
           split; [intros p Hp1 Hp2; by rewrite lookup_insert_ne, lookup_delete_ne|].
           split; [intros e; simpl; rewrite ?elem_of_cons, ?elem_of_nil; tauto|].
           intros _. rewrite lookup_insert_eq, lookup_insert_ne, lookup_delete_eq by done.
           eauto.
      * split; [done|]. split; [done|].
        split; [intros e; simpl; rewrite ?elem_of_cons, ?elem_of_nil; tauto|]. discriminate.
Qed.

(* ===================================================================== *)
(** * The theorems at the sample collaborators *)
(* ===================================================================== *)

(** The empty URL from the [mp3] button is reported as [URL_EMPTY], and a
    result with that kind tells that the provider rejected the URL; an
    interrupted resolution and an unreadable title produce no result. *)
Lemma rejected_url_at_empty_url :
  (YouTube Sample.provider (StringVar_get Sample.empty_url) true
   = Err (ExceptionInstance "RegexMatchError")
   ∧ isinstance_Exception (ExceptionInstance "RegexMatchError") = true)
  ∧ run_outcome (downloadYouTubeVideo Sample.provider Sample.home Sample.empty_url
                   (VStr "mp3") Sample.ret Sample.world) = Returned VNone
  ∧ DownloadResult_of Sample.ret
      (downloadYouTubeVideo Sample.provider Sample.home Sample.empty_url
         (VStr "mp3") Sample.ret Sample.world)
    = Some {| success := false; filePath := None; errorKind := Some URL_EMPTY |}
  ∧ (∃ e, YouTube Sample.provider (StringVar_get Sample.empty_url) true = Err e
          ∧ isinstance_Exception e = true)
  ∧ (YouTube Sample.interrupted (StringVar_get Sample.url) true
     = Err (BaseExceptionOnly "KeyboardInterrupt")
     ∧ isinstance_Exception (BaseExceptionOnly "KeyboardInterrupt") = false)
  ∧ DownloadResult_of Sample.ret
      (downloadYouTubeVideo Sample.interrupted Sample.home Sample.url (VStr "mp3")
         Sample.ret Sample.world) = None
  ∧ (YouTube Sample.offline (StringVar_get Sample.url) true = Ok 7
     ∧ title Sample.offline 7 = Err (ExceptionInstance "URLError"))
  ∧ DownloadResult_of Sample.ret
      (downloadYouTubeVideo Sample.offline Sample.home Sample.url (VStr "mp3")
         Sample.ret Sample.world) = None.
Proof.
  pose proof (rejected_url_reports_url_error Sample.provider Sample.home
                Sample.empty_url (VStr "mp3") Sample.ret Sample.world) as Hp.
  pose proof (rejected_url_reports_url_error Sample.interrupted Sample.home
                Sample.url (VStr "mp3") Sample.ret Sample.world) as Hi.
  pose proof (rejected_url_reports_url_error Sample.offline Sample.home
                Sample.url (VStr "mp3") Sample.ret Sample.world) as Ho.
  cbv zeta in Hp, Hi, Ho.
  destruct Hp as (Ha & Hb & _). destruct Hi as (_ & _ & Hc & _).
  destruct Ho as (_ & _ & _ & Hd).
  destruct (Ha (ExceptionInstance "RegexMatchError") eq_refl eq_refl)
    as (H1 & H2 & _).
  destruct (Hc (BaseExceptionOnly "KeyboardInterrupt") eq_refl eq_refl)
    as (_ & H3 & _).
  destruct (Hd 7 (ExceptionInstance "URLError") eq_refl eq_refl) as (_ & H4 & _).
  split; [split; reflexivity|]. split; [exact H1|]. split; [exact H2|].
  split; [apply Hb; eexists; split; [exact H2|by left]|].
  split; [split; reflexivity|]. split; [exact H3|].
  split; [split; reflexivity|exact H4].
Defined.

(** C1 as first stated fails: without network the object is built from the
    URL alone and the resolution fails when the title is read, inside the
    [finally] clause and past the [except] clause.  The exception leaves
    the handler: no dialog, no assignment of the holder, no result, so no
    [URL_INVALID] either.  The same holds when the resolution is
    interrupted. *)
Lemma title_failure_escapes_with_no_result :
  (YouTube Sample.offline (StringVar_get Sample.url) true = Ok 7
   ∧ title Sample.offline 7 = Err (ExceptionInstance "URLError")
   ∧ run_outcome (downloadYouTubeVideo Sample.offline Sample.home Sample.url
                    (VStr "mp3") Sample.ret Sample.world)
     = Raised (ExceptionInstance "URLError")
   ∧ dialogs (run_events (downloadYouTubeVideo Sample.offline Sample.home
                            Sample.url (VStr "mp3") Sample.ret Sample.world)) = []
   ∧ boolvar_assignments
       (run_events (downloadYouTubeVideo Sample.offline Sample.home Sample.url
                      (VStr "mp3") Sample.ret Sample.world)) = []
   ∧ DownloadResult_of Sample.ret
       (downloadYouTubeVideo Sample.offline Sample.home Sample.url (VStr "mp3")
          Sample.ret Sample.world)
     ≠ Some {| success := false; filePath := None; errorKind := Some URL_INVALID |})
  ∧ (YouTube Sample.interrupted (StringVar_get Sample.url) true
     = Err (BaseExceptionOnly "KeyboardInterrupt")
     ∧ run_outcome (downloadYouTubeVideo Sample.interrupted Sample.home Sample.url
                      (VStr "mp3") Sample.ret Sample.world)
       = Raised UnboundLocalError
     ∧ DownloadResult_of Sample.ret
         (downloadYouTubeVideo Sample.interrupted Sample.home Sample.url
            (VStr "mp3") Sample.ret Sample.world)
       ≠ Some {| success := false; filePath := None;
                 errorKind := Some URL_INVALID |}).
Proof.
  split.
  - do 5 (split; [reflexivity|]). intros H. vm_compute in H. discriminate H.
  - do 2 (split; [reflexivity|]). intros H. vm_compute in H. discriminate H.
Qed.



(** The age-gated sample is reported as [ACCESS_RESTRICTED] and writes
    nothing. *)
Lemma selection_failure_at_age_gated :
  (YouTube Sample.age_gated (StringVar_get Sample.url) true = Ok 7
   ∧ title Sample.age_gated 7 = Ok "Clip"
   ∧ selector Sample.age_gated (VStr "mp3") 7
     = Err (ExceptionInstance "AgeRestrictedError"))
  ∧ DownloadResult_of Sample.ret
      (downloadYouTubeVideo Sample.age_gated Sample.home Sample.url (VStr "mp3")
         Sample.ret Sample.world)
    = Some {| success := false; filePath := None;
              errorKind := Some ACCESS_RESTRICTED |}
  ∧ download_calls
      (run_events (downloadYouTubeVideo Sample.age_gated Sample.home Sample.url
                     (VStr "mp3") Sample.ret Sample.world)) = []
  ∧ w_fs (run_world (downloadYouTubeVideo Sample.age_gated Sample.home Sample.url
                       (VStr "mp3") Sample.ret Sample.world))
    = w_fs Sample.world.
Proof.
  split; [repeat split|].
  destruct (selection_failure_reports_access_restricted Sample.age_gated Sample.home
              Sample.url (VStr "mp3") Sample.ret Sample.world 7 "Clip"
              (ExceptionInstance "AgeRestrictedError") eq_refl eq_refl eq_refl)
    as (_ & H2 & _ & _ & H5 & _ & H7).
  split; [exact H2|]. split; [exact H5|exact H7].
Defined.

(** C4 as first stated fails: on a full disk the download raises [OSError],
    nothing in the handler catches it, no dialog is shown, and the
    exception reaches the caller. *)
Lemma download_failure_escapes_handler :
  run_outcome (downloadYouTubeVideo Sample.disk_full Sample.home Sample.url
                 (VStr "mp4") Sample.ret Sample.world)
  = Raised (ExceptionInstance "OSError")
  ∧ dialogs (run_events (downloadYouTubeVideo Sample.disk_full Sample.home
                           Sample.url (VStr "mp4") Sample.ret Sample.world)) = []
  ∧ ¬ ∃ v, run_outcome (downloadYouTubeVideo Sample.disk_full Sample.home
                          Sample.url (VStr "mp4") Sample.ret Sample.world)
           = Returned v.
Proof.
  split; [reflexivity|]. split; [reflexivity|]. intros [v Hv]. discriminate Hv.
Qed.

(** The empty URL and the age gate are caught and shown; the interrupted
    resolution, the unreadable title, the missing audio stream, the full
    disk and the directory at [Clip.mp3] are not. *)
Lemma caught_failures_at_sample :
  (YouTube Sample.provider (StringVar_get Sample.empty_url) true
   = Err (ExceptionInstance "RegexMatchError")
   ∧ isinstance_Exception (ExceptionInstance "RegexMatchError") = true)
  ∧ dialogs (run_events (downloadYouTubeVideo Sample.provider Sample.home
                           Sample.empty_url (VStr "mp4") Sample.ret Sample.world))
    = [ShowError GUI_ERROR_URL_TITLE GUI_ERROR_URL_TEXT_EMPTY]
  ∧ (YouTube Sample.age_gated (StringVar_get Sample.url) true = Ok 7
     ∧ title Sample.age_gated 7 = Ok "Clip"
     ∧ selector Sample.age_gated (VStr "mp4") 7
       = Err (ExceptionInstance "AgeRestrictedError"))
  ∧ dialogs (run_events (downloadYouTubeVideo Sample.age_gated Sample.home
                           Sample.url (VStr "mp4") Sample.ret Sample.world))
    = [ShowError GUI_ERROR_AGE_TITLE GUI_ERROR_AGE_TEXT]
  ∧ (YouTube Sample.interrupted (StringVar_get Sample.url) true
     = Err (BaseExceptionOnly "KeyboardInterrupt")
     ∧ isinstance_Exception (BaseExceptionOnly "KeyboardInterrupt") = false)
  ∧ run_outcome (downloadYouTubeVideo Sample.interrupted Sample.home Sample.url
                   (VStr "mp4") Sample.ret Sample.world)
    = Raised UnboundLocalError
  ∧ (YouTube Sample.offline (StringVar_get Sample.url) true = Ok 7
     ∧ title Sample.offline 7 = Err (ExceptionInstance "URLError"))
  ∧ run_outcome (downloadYouTubeVideo Sample.offline Sample.home Sample.url
                   (VStr "mp4") Sample.ret Sample.world)
    = Raised (ExceptionInstance "URLError")
  ∧ selector Sample.no_audio (VStr "mp3") 7 = Ok None
  ∧ run_outcome (downloadYouTubeVideo Sample.no_audio Sample.home Sample.url
                   (VStr "mp3") Sample.ret Sample.world)
    = Raised AttributeError
  ∧ download Sample.disk_full 2 (downloads_dir Sample.home) (w_fs Sample.world)
    = (Err (ExceptionInstance "OSError"), ∅)
  ∧ run_outcome (downloadYouTubeVideo Sample.disk_full Sample.home Sample.url
                   (VStr "mp4") Sample.ret Sample.world)
    = Raised (ExceptionInstance "OSError")
  ∧ ("/home/u/Downloads/Clip.mp4" ≠ mp3_path "/home/u/Downloads/Clip.mp4"
     ∧ isdir Sample.dir_at_target (mp3_path "/home/u/Downloads/Clip.mp4") = true)
  ∧ run_outcome (downloadYouTubeVideo Sample.dir_at_target Sample.home Sample.url
                   (VStr "mp3") Sample.ret Sample.world)
    = Raised IsADirectoryError.
Proof.
  pose proof (resolution_and_selection_failures_are_caught Sample.dir_at_target
                Sample.home Sample.url (VStr "mp3") Sample.ret Sample.world) as H7.
  cbv zeta in H7. destruct H7 as (_ & _ & _ & _ & _ & _ & H7).
  assert (Hne : "/home/u/Downloads/Clip.mp4" ≠ mp3_path "/home/u/Downloads/Clip.mp4")
    by (intros H; vm_compute in H; discriminate H).
  assert (Hf : ({["/home/u/Downloads/Clip.mp4" := Sample.bytes]} : FS)
                 !! "/home/u/Downloads/Clip.mp4" = Some Sample.bytes)
    by (by vm_compute).
  destruct (H7 7 "Clip" 1 "/home/u/Downloads/Clip.mp4"
              {["/home/u/Downloads/Clip.mp4" := Sample.bytes]} Sample.bytes
              eq_refl eq_refl eq_refl eq_refl eq_refl Hf) as (_ & H7').
  destruct (H7' Hne eq_refl) as (E7 & _). clear H7 H7'.
  pose proof (resolution_and_selection_failures_are_caught Sample.provider
                Sample.home Sample.empty_url (VStr "mp4") Sample.ret Sample.world)
    as H1.
  pose proof (resolution_and_selection_failures_are_caught Sample.age_gated
                Sample.home Sample.url (VStr "mp4") Sample.ret Sample.world) as H2.
  pose proof (resolution_and_selection_failures_are_caught Sample.interrupted
                Sample.home Sample.url (VStr "mp4") Sample.ret Sample.world) as H3.
  pose proof (resolution_and_selection_failures_are_caught Sample.offline
                Sample.home Sample.url (VStr "mp4") Sample.ret Sample.world) as H4.
  pose proof (resolution_and_selection_failures_are_caught Sample.no_audio
                Sample.home Sample.url (VStr "mp3") Sample.ret Sample.world) as H5.
  pose proof (resolution_and_selection_failures_are_caught Sample.disk_full
                Sample.home Sample.url (VStr "mp4") Sample.ret Sample.world) as H6.
  cbv zeta in H1, H2, H3, H4, H5, H6.
  destruct H1 as (H1 & _). destruct H2 as (_ & H2 & _).
  destruct H3 as (_ & _ & H3 & _). destruct H4 as (_ & _ & _ & H4 & _).
  destruct H5 as (_ & _ & _ & _ & H5 & _).
  destruct H6 as (_ & _ & _ & _ & _ & H6 & _).
  destruct (H1 (ExceptionInstance "RegexMatchError") eq_refl eq_refl) as (_ & E1).
  destruct (H2 7 "Clip" (ExceptionInstance "AgeRestrictedError")
              eq_refl eq_refl eq_refl) as (_ & E2).
  destruct (H3 (BaseExceptionOnly "KeyboardInterrupt") eq_refl eq_refl) as (E3 & _).
  destruct (H4 7 (ExceptionInstance "URLError") eq_refl eq_refl) as (E4 & _).
  destruct (H5 7 "Clip" eq_refl eq_refl eq_refl) as (E5 & _).
  destruct (H6 7 "Clip" 2 (ExceptionInstance "OSError") ∅
              eq_refl eq_refl eq_refl eq_refl) as (E6 & _).
  split; [split; reflexivity|]. split; [by rewrite E1|].
  split; [repeat split|]. split; [by rewrite E2|].
  split; [split; reflexivity|]. split; [exact E3|].
  split; [split; reflexivity|]. split; [exact E4|].
  split; [reflexivity|]. split; [exact E5|].
  split; [reflexivity|]. split; [exact E6|].
  split; [split; [exact Hne|reflexivity]|exact E7].
Defined.

(** The sample audio request, run twice in a row. *)
Lemma repeated_audio_request_at_sample :
  is_success Sample.ret
    (button_command Sample.provider Sample.home Sample.url Sample.ret AUDIO Sample.world)
  ∧ is_success Sample.ret
      (button_command Sample.provider Sample.home Sample.url Sample.ret AUDIO
         (run_world (button_command Sample.provider Sample.home Sample.url
                       Sample.ret AUDIO Sample.world)))
  ∧ w_fs (run_world
            (button_command Sample.provider Sample.home Sample.url Sample.ret AUDIO
               (run_world (button_command Sample.provider Sample.home Sample.url
                             Sample.ret AUDIO Sample.world))))
    = w_fs (run_world (button_command Sample.provider Sample.home Sample.url
                         Sample.ret AUDIO Sample.world)).
Proof.
  assert (Hs : is_success Sample.ret
                 (button_command Sample.provider Sample.home Sample.url Sample.ret
                    AUDIO Sample.world)) by reflexivity.
  split; [exact Hs|].
  destruct (repeated_audio_request_overwrites Sample.provider Sample.home Sample.url
              Sample.ret Sample.world 7 1 "/home/u/Downloads/Clip.mp4" Sample.bytes
              eq_refl eq_refl (fun f => eq_refl) Hs)
    as (H1 & H2 & _).
  split; [exact H1|exact H2].
Defined.

(** The sample video request keeps [Clip.mp4] as the provider wrote it. *)
Lemma video_request_at_sample :
  (YouTube Sample.provider (StringVar_get Sample.url) true = Ok 7
   ∧ title Sample.provider 7 = Ok "Clip"
   ∧ streams_get_highest_resolution Sample.provider 7 = Ok (Some 2)
   ∧ download Sample.provider 2 (downloads_dir Sample.home) (w_fs Sample.world)
     = (Ok "/home/u/Downloads/Clip.mp4",
        {["/home/u/Downloads/Clip.mp4" := Sample.bytes]}))
  ∧ is_success Sample.ret
      (button_command Sample.provider Sample.home Sample.url Sample.ret VIDEO
         Sample.world)
  ∧ os_calls (run_events (button_command Sample.provider Sample.home Sample.url
                            Sample.ret VIDEO Sample.world)) = []
  ∧ DownloadResult_of Sample.ret
      (button_command Sample.provider Sample.home Sample.url Sample.ret VIDEO
         Sample.world)
    = Some {| success := true; filePath := Some "/home/u/Downloads/Clip.mp4";
              errorKind := None |}.
Proof.
  split; [repeat split|].
  destruct (video_request_keeps_native_file Sample.provider Sample.home Sample.url
              Sample.ret Sample.world 7 "Clip" 2 "/home/u/Downloads/Clip.mp4"
              {["/home/u/Downloads/Clip.mp4" := Sample.bytes]}
              eq_refl eq_refl eq_refl eq_refl)
    as (H1 & H2 & _ & _ & _ & H6).
  split; [exact H1|]. split; [exact H2|exact H6].
Defined.

(** The sample request downloads into [/home/u/Downloads], and the disk
    afterwards is the one the provider's download left. *)
Lemma downloads_folder_at_sample :
  is_success Sample.ret
    (downloadYouTubeVideo Sample.provider Sample.home Sample.url (VStr "mp4")
       Sample.ret Sample.world)
  ∧ ∃ x outFile f,
      download_calls
        (run_events (downloadYouTubeVideo Sample.provider Sample.home Sample.url
                       (VStr "mp4") Sample.ret Sample.world))
      = [(x, "/home/u/Downloads")]
      ∧ download Sample.provider x "/home/u/Downloads" (w_fs Sample.world)
        = (Ok outFile, f)
      ∧ w_fs (run_world (downloadYouTubeVideo Sample.provider Sample.home
                           Sample.url (VStr "mp4") Sample.ret Sample.world)) = f
      ∧ DownloadResult_of Sample.ret
          (downloadYouTubeVideo Sample.provider Sample.home Sample.url (VStr "mp4")
             Sample.ret Sample.world)
        = Some {| success := true; filePath := Some outFile; errorKind := None |}.
Proof.
  assert (Hs : is_success Sample.ret
                 (downloadYouTubeVideo Sample.provider Sample.home Sample.url
                    (VStr "mp4") Sample.ret Sample.world)) by reflexivity.
  split; [exact Hs|].
  destruct (download_goes_to_downloads_folder Sample.provider Sample.home Sample.url
              (VStr "mp4") Sample.ret Sample.world Hs)
    as (y & x & outFile & f & _ & _ & Hcalls & HD & _ & _ & Hres & _ & _ & _ & Hfs & _).
  exists x, outFile, f.
  split; [exact Hcalls|]. split; [exact HD|]. split; [exact (Hfs eq_refl)|exact Hres].
Defined.

(** [fileType = None] behaves as ["mp4"]: the sample request selects the
    combined stream and keeps [Clip.mp4]; ["mp3"] selects the audio-only
    stream and renames. *)
Lemma unexpected_file_type_at_sample :
  (VNone ≠ VStr "mp3"
   ∧ YouTube Sample.provider (StringVar_get Sample.url) true = Ok 7
   ∧ title Sample.provider 7 = Ok "Clip"
   ∧ streams_get_highest_resolution Sample.provider 7 = Ok (Some 2)
   ∧ streams_get_audio_only Sample.provider 7 = Ok (Some 1)
   ∧ ∀ x, download Sample.provider x (downloads_dir Sample.home) (w_fs Sample.world)
          = (Ok "/home/u/Downloads/Clip.mp4",
             {["/home/u/Downloads/Clip.mp4" := Sample.bytes]}))
  ∧ downloadYouTubeVideo Sample.provider Sample.home Sample.url VNone Sample.ret
      Sample.world
    = downloadYouTubeVideo Sample.provider Sample.home Sample.url (VStr "mp4")
        Sample.ret Sample.world
  ∧ os_calls (run_events (downloadYouTubeVideo Sample.provider Sample.home
                            Sample.url VNone Sample.ret Sample.world)) = []
  ∧ List.filter is_video_selection
      (run_events (downloadYouTubeVideo Sample.provider Sample.home Sample.url
                     VNone Sample.ret Sample.world))
    = [CallGetHighestResolution 7]
  ∧ is_success Sample.ret
      (downloadYouTubeVideo Sample.provider Sample.home Sample.url VNone Sample.ret
         Sample.world)
  ∧ w_fs (run_world (downloadYouTubeVideo Sample.provider Sample.home Sample.url
                       VNone Sample.ret Sample.world))
    = {["/home/u/Downloads/Clip.mp4" := Sample.bytes]}
  ∧ List.filter is_audio_selection
      (run_events (downloadYouTubeVideo Sample.provider Sample.home Sample.url
                     (VStr "mp3") Sample.ret Sample.world))
    = [CallGetAudioOnly 7]
  ∧ OsRename "/home/u/Downloads/Clip.mp4" (mp3_path "/home/u/Downloads/Clip.mp4")
      ∈ run_events (downloadYouTubeVideo Sample.provider Sample.home Sample.url
                      (VStr "mp3") Sample.ret Sample.world).
Proof.
  assert (Hne : VNone ≠ VStr "mp3") by discriminate.
  split; [split; [exact Hne|repeat split]|].
  pose proof (only_mp3_takes_audio_branch Sample.provider Sample.home Sample.url
                Sample.ret Sample.world) as [Hv Ha].
  specialize (Hv VNone Hne). cbv zeta in Hv, Ha.
  destruct Hv as (H1 & _ & H3 & Hsel).
  destruct (Hsel 7 "Clip" eq_refl eq_refl) as (H4 & Hdl).
  destruct (Hdl 2 "/home/u/Downloads/Clip.mp4"
              {["/home/u/Downloads/Clip.mp4" := Sample.bytes]} eq_refl eq_refl)
    as (H5 & H6 & _).
  destruct Ha as (_ & Hsel').
  destruct (Hsel' 7 "Clip" eq_refl eq_refl) as (H7 & Hdl').
  destruct (Hdl' 1 "/home/u/Downloads/Clip.mp4"
              {["/home/u/Downloads/Clip.mp4" := Sample.bytes]} eq_refl eq_refl)
    as (H8 & _).
  split; [exact H1|]. split; [exact H3|]. split; [exact H4|]. split; [exact H5|].
  split; [exact H6|]. split; [exact H7|exact H8].
Defined.

(** The rejected empty URL assigns the holder once, to [False]. *)
Lemma ret_assigned_once_at_sample :
  run_outcome (downloadYouTubeVideo Sample.provider Sample.home Sample.empty_url
                 (VStr "mp4") Sample.ret Sample.world) = Returned VNone
  ∧ boolvar_assignments
      (run_events (downloadYouTubeVideo Sample.provider Sample.home Sample.empty_url
                     (VStr "mp4") Sample.ret Sample.world))
    = [(Sample.ret, false)].
Proof.
  assert (Hr : run_outcome (downloadYouTubeVideo Sample.provider Sample.home
                              Sample.empty_url (VStr "mp4") Sample.ret Sample.world)
               = Returned VNone) by reflexivity.
  split; [exact Hr|].
  destruct (ret_assigned_once_on_return Sample.provider Sample.home Sample.empty_url
              (VStr "mp4") Sample.ret Sample.world VNone Hr)
    as [(_ & H & _)|(Hv & _)]; [exact H|discriminate Hv].
Defined.

(** [Clip.mp4] and [Clip.mp3] share their directory and their stem. *)
Lemma rename_at_sample :
  os_path.dirname (mp3_path "/home/u/Downloads/Clip.mp4")
  = os_path.dirname "/home/u/Downloads/Clip.mp4"
  ∧ ∃ stem, os_path.basename "/home/u/Downloads/Clip.mp4"
            = stem +:+ snd (os_path.splitext "/home/u/Downloads/Clip.mp4")
            ∧ os_path.basename (mp3_path "/home/u/Downloads/Clip.mp4")
              = stem +:+ ".mp3".
Proof.
  destruct (rename_changes_only_extension "/home/u/Downloads/Clip.mp4")
    as (_ & _ & _ & _ & Hdir & Hbase & _).
  split; [exact Hdir|exact Hbase].
Defined.

(* ===================================================================== *)
(** * Further properties of the handler *)
(* ===================================================================== *)

(** X1.  A call that ends in an exception has shown no dialog and has not
    assigned the result holder: every toolkit variable reads what it read
    before the call. *)
Theorem raising_call_is_silent P home url fileType ret w e :
  run_outcome (downloadYouTubeVideo P home url fileType ret w) = Raised e →
  dialogs (run_events (downloadYouTubeVideo P home url fileType ret w)) = []
  ∧ boolvar_assignments
      (run_events (downloadYouTubeVideo P home url fileType ret w)) = []
  ∧ w_boolvars (run_world (downloadYouTubeVideo P home url fileType ret w))
    = w_boolvars w.
Proof.
  exec_all. all: intros Hr; try discriminate Hr. all: repeat split.
Qed.

(** X2.  An exception from [YouTube(...)] that is not an [Exception] passes
    the [except Exception] clause; the [finally] clause then reads the
    local [yt], which was never bound.  The caller sees
    [UnboundLocalError] in place of the original exception, after two
    events only, with the world as it was. *)
Theorem non_Exception_from_resolution_is_masked P home url fileType ret w e :
  YouTube P (StringVar_get url) true = Err e →
  isinstance_Exception e = false →
  downloadYouTubeVideo P home url fileType ret w =
    {| run_outcome := Raised UnboundLocalError;
       run_world := w;
       run_events := [LogInfo "Attempting to access URL.";
                      CallYouTube (StringVar_get url) true] |}.
Proof.
  intros HY He. exec. rewrite HY. exec.
  destruct e; [discriminate|]. by destruct w.
Qed.

(** X3.  The title is read inside the [finally] clause, past the [except]
    clause: when reading it raises, that exception leaves the handler as it
    is.  No stream was selected, nothing was downloaded, and the world is
    as it was. *)
Theorem unreadable_title_escapes P home url fileType ret w y e :
  YouTube P (StringVar_get url) true = Ok y →
  title P y = Err e →
  downloadYouTubeVideo P home url fileType ret w =
    {| run_outcome := Raised e;
       run_world := w;
       run_events :=
         [LogInfo "Attempting to access URL.";
          CallYouTube (StringVar_get url) true;
          LogInfo "URL access successful. Video has been found."] |}.
Proof.
  intros HY HT. exec. rewrite HY. exec. rewrite HT. by destruct w.
Qed.

(** X4.  When the selector of the requested kind returns [None] (no stream
    of that kind), nothing is caught by the [except:] clause; the handler
    logs ["Stream data is None"] and [stream.download] raises
    [AttributeError] outside every [try].  The provider's download is not
    called, no dialog is shown and the world is as it was. *)
Theorem missing_stream_raises_before_download P home url fileType ret w y t :
  YouTube P (StringVar_get url) true = Ok y →
  title P y = Ok t →
  selector P fileType y = Ok None →
  run_outcome (downloadYouTubeVideo P home url fileType ret w)
  = Raised AttributeError
  ∧ run_world (downloadYouTubeVideo P home url fileType ret w) = w
  ∧ download_calls (run_events (downloadYouTubeVideo P home url fileType ret w)) = []
  ∧ dialogs (run_events (downloadYouTubeVideo P home url fileType ret w)) = []
  ∧ last (run_events (downloadYouTubeVideo P home url fileType ret w))
    = Some (LogInfo ("Starting download of stream at " +:+ StringVar_get url))
  ∧ LogInfo "Stream data is None"
      ∈ run_events (downloadYouTubeVideo P home url fileType ret w).
Proof.
  intros HY HT HS. unfold selector in HS. destruct w as [f bv].
  exec. rewrite HY. exec. rewrite HT. exec.
  destruct (py_eq_str fileType "mp3"); exec; rewrite HS; exec.
  all: repeat split; rewrite !elem_of_cons; auto 20.
Qed.

(** X5.  An audio request whose provider stores the stream under a name
    that ends in [.mp3] already destroys its own download: the handler
    takes the fresh file for an older one, logs the overwrite, removes it,
    and [os.rename] then raises [FileNotFoundError].  The file is gone from
    the disk, no dialog is shown and the holder is not assigned. *)
Theorem native_mp3_download_is_destroyed
        P home url ret w y t x outFile f bytes :
  YouTube P (StringVar_get url) true = Ok y →
  title P y = Ok t →
  streams_get_audio_only P y = Ok (Some x) →
  download P x (downloads_dir home) (w_fs w) = (Ok outFile, f) →
  f !! outFile = Some bytes →
  extension outFile = ".mp3" →
  run_outcome (downloadYouTubeVideo P home url (VStr "mp3") ret w)
  = Raised FileNotFoundError
  ∧ run_world (downloadYouTubeVideo P home url (VStr "mp3") ret w)
    = {| w_fs := delete outFile f; w_boolvars := w_boolvars w |}
  ∧ os_calls (run_events (downloadYouTubeVideo P home url (VStr "mp3") ret w))
    = [OsRemove outFile; OsRename outFile outFile]
  ∧ LogWarning "Overwriting file with identical name."
      ∈ run_events (downloadYouTubeVideo P home url (VStr "mp3") ret w)
  ∧ dialogs (run_events (downloadYouTubeVideo P home url (VStr "mp3") ret w)) = [].
Proof.
  intros HY HT HS HD Hf Hext. apply mp3_path_fixed in Hext.
  unfold mp3_path, downloads_dir in *.
  destruct (os_path.splitext outFile) as [base ext] eqn:Hsp; simpl in *.
  exec. rewrite HY. exec. rewrite HT. exec. rewrite HS. exec. rewrite HD. exec.
  rewrite Hsp. exec. rewrite Hext, Hf. exec. rewrite Hf. exec.
  rewrite lookup_delete_eq. exec.
  repeat split. rewrite !elem_of_cons; auto 20.
Qed.


(** X7.  The handler assigns no toolkit variable but the holder it was
    given: every other one reads after the call what it read before,
    however the call ends. *)
Theorem other_holders_untouched P home url fileType ret w r' :
  r' ≠ ret →
  w_boolvars (run_world (downloadYouTubeVideo P home url fileType ret w)) !! r'
  = w_boolvars w !! r'.
Proof.
  intros Hne. exec_all. all: simpl; by rewrite ?lookup_insert_ne.
Qed.

(** The resolution calls of one call of the handler. *)
Lemma resolution_events P home url fileType ret w :
  List.filter is_resolution
    (run_events (downloadYouTubeVideo P home url fileType ret w))
  = [CallYouTube (StringVar_get url) true].
Proof.
  exec_all; reflexivity.
Qed.

(** X8.  The first thing every call does, after one log line, is to contact
    the provider to resolve the URL, with the text of the entry as it is
    (the empty string included) and with [use_oauth = True]; it never
    resolves a second time, whatever happens afterwards. *)
Theorem provider_contacted_once P home url fileType ret w :
  ∃ rest,
    run_events (downloadYouTubeVideo P home url fileType ret w)
    = LogInfo "Attempting to access URL."
        :: CallYouTube (StringVar_get url) true :: rest
    ∧ List.filter is_resolution rest = [].
Proof.
  exec_all; eexists; split; reflexivity.
Qed.

(** X9.  A call asks the provider for at most one download, and only for
    the stream the selector of the requested kind returned for the
    resolved URL, into the downloads folder. *)
Theorem download_only_after_selection P home url fileType ret w :
  download_calls (run_events (downloadYouTubeVideo P home url fileType ret w)) = []
  ∨ ∃ y t x,
      YouTube P (StringVar_get url) true = Ok y
      ∧ title P y = Ok t
      ∧ selector P fileType y = Ok (Some x)
      ∧ download_calls (run_events (downloadYouTubeVideo P home url fileType ret w))
        = [(x, downloads_dir home)].
Proof.
  exec_all.
  all: first [ left; reflexivity
             | right; eexists _, _, _;
               do 3 (split; [first [reflexivity | eassumption]|]); reflexivity ].
Qed.

(** X10.  The disk changes through the download only: a call that made no
    download call leaves the file system as it was; and a call for a
    [fileType] other than ["mp3"] leaves it either as it was or exactly as
    the provider's download left it. *)
Theorem disk_changes_through_download_only P home url fileType ret w :
  (download_calls (run_events (downloadYouTubeVideo P home url fileType ret w)) = [] →
   w_fs (run_world (downloadYouTubeVideo P home url fileType ret w)) = w_fs w)
  ∧ (py_eq_str fileType "mp3" = false →
     w_fs (run_world (downloadYouTubeVideo P home url fileType ret w)) = w_fs w
     ∨ ∃ x res,
         download P x (downloads_dir home) (w_fs w)
         = (res, w_fs (run_world (downloadYouTubeVideo P home url fileType ret w)))).
Proof.
  split.
  - exec_all. all: intros Hd; try discriminate Hd; reflexivity.
  - exec_all. all: intros Hft; try discriminate Hft.
    all: first [ left; reflexivity | right; eexists _, _; eassumption ].
Qed.

(** X11.  On an audio request whose download went through, the handler
    logs the overwrite warning and calls [os.remove] exactly when a file
    with the [.mp3] name is on the disk after the download. *)
Theorem overwrite_warning_iff P home url ret w y t x outFile f :
  YouTube P (StringVar_get url) true = Ok y →
  title P y = Ok t →
  streams_get_audio_only P y = Ok (Some x) →
  download P x (downloads_dir home) (w_fs w) = (Ok outFile, f) →
  (LogWarning "Overwriting file with identical name."
     ∈ run_events (downloadYouTubeVideo P home url (VStr "mp3") ret w)
   ↔ is_Some (f !! mp3_path outFile))
  ∧ (OsRemove (mp3_path outFile)
       ∈ run_events (downloadYouTubeVideo P home url (VStr "mp3") ret w)
     ↔ is_Some (f !! mp3_path outFile)).
Proof.
  intros HY HT HS HD. unfold mp3_path, downloads_dir in *.
  destruct (os_path.splitext outFile) as [base ext] eqn:Hsp; simpl in *.
  exec. rewrite HY. exec. rewrite HT. exec. rewrite HS. exec. rewrite HD. exec.
  rewrite Hsp. exec.
  destruct (f !! (base +:+ ".mp3")) as [old|] eqn:Hnew; exec.
  - rewrite Hnew. exec.
    destruct (delete (base +:+ ".mp3") f !! outFile); exec;
      repeat (split_oracle; exec).
    all: split; (split; [eauto|intros _; rewrite !elem_of_cons; auto 20]).
  - destruct (f !! outFile); exec; repeat (split_oracle; exec).
    all: split; (split; [|intros []; discriminate]).
    all: rewrite !elem_of_cons, elem_of_nil; intros H.
    all: repeat (destruct H as [H|H]; [discriminate H|]); done.
Qed.

(* ===================================================================== *)
(** * The window: buttons, clicks and the main loop *)
(* ===================================================================== *)

Lemma is_SystemExit_true e : is_SystemExit e = true ↔ e = SystemExit.
Proof.
  destruct e as [cls|cls]; simpl; [split; discriminate|].
  rewrite String.eqb_eq. unfold SystemExit. split; congruence.
Qed.

(** A [SystemExit] raised while the URL is resolved is masked, one raised
    by a selector is swallowed by the bare [except:]; the handler lets
    [SystemExit] out only from reading the title or from the download. *)
Lemma handler_exit_origin P home url fileType ret w :
  run_outcome (downloadYouTubeVideo P home url fileType ret w) = Raised SystemExit →
  (∃ y, title P y = Err SystemExit)
  ∨ (∃ x d f f', download P x d f = (Err SystemExit, f')).
Proof.
  exec_all. all: intros Hr; try discriminate Hr.
  all: injection Hr as ->; eauto 10.
Qed.

(** One click on a button, for a provider that never exits: the loop goes
    on with the world the request left. *)
Lemma mainloop_click P home win ret i rest s text width fileType column row :
  never_exits P →
  win_widgets win !! i = Some (Button text width fileType column row) →
  ∃ reported,
    mainloop P home win ret (Click i :: rest) s =
    mainloop P home win ret rest
      {| s_url := s_url s;
         s_world := run_world (downloadYouTubeVideo P home
                                 {| StringVar_get := s_url s |} fileType ret (s_world s));
         s_log := s_log s
                    ++ run_events (downloadYouTubeVideo P home
                                     {| StringVar_get := s_url s |} fileType ret
                                     (s_world s));
         s_reported := s_reported s ++ reported |}.
Proof.
  intros [Ht Hd] Hw. cbn [mainloop]. rewrite Hw.
  destruct (run_outcome _) as [v|e] eqn:Ho.
  - exists []. by rewrite app_nil_r.
  - destruct (is_SystemExit e) eqn:He; [|by exists [e]].
    apply is_SystemExit_true in He as ->.
    apply handler_exit_origin in Ho as [[y Hy]|(x & d & f & f' & Hx)].
    + by destruct (Ht y).
    + by destruct (Hd x d f f').
Qed.

Lemma mainloop_survives P home win ret actions :
  never_exits P →
  ∀ s, ∃ s' t,
    mainloop P home win ret actions s = (None, s')
    ∧ s_log s' = s_log s ++ t
    ∧ List.filter is_resolution t
      = (λ u, CallYouTube u true) <$> clicked_urls win actions (s_url s).
Proof.
  intros Hne. induction actions as [|[text|i] rest IH]; intros s.
  - exists s, []. by rewrite app_nil_r.
  - destruct (IH {| s_url := text; s_world := s_world s; s_log := s_log s;
                    s_reported := s_reported s |}) as (s' & t & Hm & Hl & Hf).
    by exists s', t.
  - destruct (win_widgets win !! i) as [[| |text width ft col row]|] eqn:Hw.
    1, 2, 4: destruct (IH s) as (s' & t & Hm & Hl & Hf);
             exists s', t; cbn [mainloop clicked_urls]; by rewrite Hw.
    destruct (mainloop_click P home win ret i rest s _ _ _ _ _ Hne Hw)
      as (reported & ->).
    match goal with |- context [mainloop _ _ _ _ rest ?s1] =>
      destruct (IH s1) as (s' & t & Hm & Hl & Hf) end.
    simpl in Hl, Hf.
    eexists s', (_ ++ t). split; [exact Hm|].
    split; [by rewrite Hl, app_assoc|].
    cbn [clicked_urls]. rewrite Hw, List.filter_app, Hf.
    by rewrite resolution_events.
Qed.

(** X12.  With a provider that never raises [SystemExit], no failure of a
    request ends the main loop: whatever the user types and clicks, and
    whatever the requests raise, [createGUI] runs to the closing of the
    window, logs its two lines first and last, and returns [True], and
    [main] returns [None].  Each click on a button resolves the text the
    entry holds at that moment, once, in the order of the clicks; typing
    and clicks elsewhere contact nothing. *)
Theorem window_survives_failures P home disk actions :
  never_exits P →
  gui_outcome (createGUI P home disk actions) = Returned (VBool true)
  ∧ main P home disk actions = Returned VNone
  ∧ List.filter is_resolution (s_log (gui_session (createGUI P home disk actions)))
    = (λ u, CallYouTube u true)
        <$> clicked_urls createGUI_window actions EmptyString
  ∧ head (s_log (gui_session (createGUI P home disk actions)))
    = Some (LogInfo "Creating GUI.")
  ∧ last (s_log (gui_session (createGUI P home disk actions)))
    = Some (LogInfo "GUI creation finished.").
Proof.
  intros Hne. unfold main, createGUI.
  match goal with |- context [mainloop P home createGUI_window ?r actions ?s0] =>
    destruct (mainloop_survives P home createGUI_window r actions Hne s0)
      as (s' & t & -> & Hl & Hf) end.
  simpl in *. rewrite Hl. simpl.
  split; [done|]. split; [done|].
  split; [by rewrite List.filter_app, Hf; simpl; rewrite app_nil_r|].
  split; [done|]. by rewrite app_comm_cons, last_snoc.
Qed.



(** X14.  Each button of the window passes its own label as the
    [fileType] of its command, and the label is ["mp3"] or ["mp4"].  A
    request started from the button labelled ["mp4"] never asks for the
    audio-only stream and never calls [os.remove] or [os.rename]; one
    started from the button labelled ["mp3"] never asks for the
    highest-resolution stream. *)
Theorem button_label_names_its_format
        P home url ret w i text width fileType column row :
  win_widgets createGUI_window !! i = Some (Button text width fileType column row) →
  fileType = VStr text
  ∧ (text = "mp3" ∨ text = "mp4")
  ∧ (text = "mp4" →
     List.filter is_audio_selection
       (run_events (downloadYouTubeVideo P home url fileType ret w)) = []
     ∧ os_calls (run_events (downloadYouTubeVideo P home url fileType ret w)) = [])
  ∧ (text = "mp3" →
     List.filter is_video_selection
       (run_events (downloadYouTubeVideo P home url fileType ret w)) = []).
Proof.
  intros Hw.
  destruct i as [|[|[|[|i]]]]; simpl in Hw; try discriminate Hw.
  - injection Hw as <- <- <- <- <-.
    split; [done|]. split; [by left|]. split; [discriminate|]. intros _.
    change (VStr (fst FILE_TYPES)) with (VStr "mp3"). exec_all; reflexivity.
  - injection Hw as <- <- <- <- <-.
    split; [done|]. split; [by right|]. split; [|discriminate]. intros _.
    change (VStr (snd FILE_TYPES)) with (VStr "mp4"). exec_all; by split.
Qed.

(* ===================================================================== *)
(** * The further properties at the sample collaborators *)
(* ===================================================================== *)

(** On the full disk the video request raises and is silent. *)
Lemma raising_call_at_disk_full :
  run_outcome (downloadYouTubeVideo Sample.disk_full Sample.home Sample.url
                 (VStr "mp4") Sample.ret Sample.world)
  = Raised (ExceptionInstance "OSError")
  ∧ dialogs (run_events (downloadYouTubeVideo Sample.disk_full Sample.home
                           Sample.url (VStr "mp4") Sample.ret Sample.world)) = []
  ∧ boolvar_assignments
      (run_events (downloadYouTubeVideo Sample.disk_full Sample.home Sample.url
                     (VStr "mp4") Sample.ret Sample.world)) = [].
Proof.
  assert (Hr : run_outcome (downloadYouTubeVideo Sample.disk_full Sample.home
                              Sample.url (VStr "mp4") Sample.ret Sample.world)
               = Raised (ExceptionInstance "OSError")) by reflexivity.
  split; [exact Hr|].
  destruct (raising_call_is_silent _ _ _ _ _ _ _ Hr) as (H1 & H2 & _).
  split; [exact H1|exact H2].
Defined.

(** The interrupted resolution surfaces as [UnboundLocalError]. *)
Lemma masked_interrupt_at_sample :
  (YouTube Sample.interrupted (StringVar_get Sample.url) true
   = Err (BaseExceptionOnly "KeyboardInterrupt")
   ∧ isinstance_Exception (BaseExceptionOnly "KeyboardInterrupt") = false)
  ∧ run_outcome (downloadYouTubeVideo Sample.interrupted Sample.home Sample.url
                   (VStr "mp3") Sample.ret Sample.world)
    = Raised UnboundLocalError.
Proof.
  split; [split; reflexivity|].
  by rewrite (non_Exception_from_resolution_is_masked Sample.interrupted
                Sample.home Sample.url (VStr "mp3") Sample.ret Sample.world
                (BaseExceptionOnly "KeyboardInterrupt") eq_refl eq_refl).
Defined.

(** The unreadable title leaves the handler as [PytubeError]. *)
Lemma unreadable_title_at_sample :
  (YouTube Sample.title_unreadable (StringVar_get Sample.url) true = Ok 7
   ∧ title Sample.title_unreadable 7 = Err (ExceptionInstance "PytubeError"))
  ∧ run_outcome (downloadYouTubeVideo Sample.title_unreadable Sample.home
                   Sample.url (VStr "mp4") Sample.ret Sample.world)
    = Raised (ExceptionInstance "PytubeError").
Proof.
  split; [split; reflexivity|].
  by rewrite (unreadable_title_escapes Sample.title_unreadable Sample.home
                Sample.url (VStr "mp4") Sample.ret Sample.world 7
                (ExceptionInstance "PytubeError") eq_refl eq_refl).
Defined.

(** Without an audio-only stream the audio request raises
    [AttributeError] and downloads nothing. *)
Lemma missing_stream_at_sample :
  (YouTube Sample.no_audio (StringVar_get Sample.url) true = Ok 7
   ∧ title Sample.no_audio 7 = Ok "Clip"
   ∧ selector Sample.no_audio (VStr "mp3") 7 = Ok None)
  ∧ run_outcome (downloadYouTubeVideo Sample.no_audio Sample.home Sample.url
                   (VStr "mp3") Sample.ret Sample.world)
    = Raised AttributeError
  ∧ download_calls
      (run_events (downloadYouTubeVideo Sample.no_audio Sample.home Sample.url
                     (VStr "mp3") Sample.ret Sample.world)) = [].
Proof.
  split; [repeat split|].
  destruct (missing_stream_raises_before_download Sample.no_audio Sample.home
              Sample.url (VStr "mp3") Sample.ret Sample.world 7 "Clip"
              eq_refl eq_refl eq_refl)
    as (H1 & _ & H3 & _).
  split; [exact H1|exact H3].
Defined.

(** The provider that writes [Clip.mp3] loses its file to the audio
    request. *)
Lemma native_mp3_at_sample :
  (download Sample.native_mp3 1 (downloads_dir Sample.home) (w_fs Sample.world)
   = (Ok "/home/u/Downloads/Clip.mp3",
      {["/home/u/Downloads/Clip.mp3" := Sample.bytes]})
   ∧ extension "/home/u/Downloads/Clip.mp3" = ".mp3")
  ∧ run_outcome (downloadYouTubeVideo Sample.native_mp3 Sample.home Sample.url
                   (VStr "mp3") Sample.ret Sample.world)
    = Raised FileNotFoundError
  ∧ w_fs (run_world (downloadYouTubeVideo Sample.native_mp3 Sample.home Sample.url
                       (VStr "mp3") Sample.ret Sample.world))
      !! "/home/u/Downloads/Clip.mp3" = None.
Proof.
  split; [split; reflexivity|].
  destruct (native_mp3_download_is_destroyed Sample.native_mp3 Sample.home
              Sample.url Sample.ret Sample.world 7 "Clip" 1
              "/home/u/Downloads/Clip.mp3"
              {["/home/u/Downloads/Clip.mp3" := Sample.bytes]} Sample.bytes
              eq_refl eq_refl eq_refl eq_refl (lookup_singleton_eq _ _) eq_refl)
    as (H1 & H2 & _).
  split; [exact H1|]. rewrite H2; simpl. apply lookup_delete_eq.
Defined.


(** A second holder keeps its value through a request. *)
Lemma other_holder_at_sample :
  5 ≠ Sample.ret
  ∧ w_boolvars
      (run_world (downloadYouTubeVideo Sample.provider Sample.home Sample.url
                    (VStr "mp4") Sample.ret
                    {| w_fs := ∅; w_boolvars := {[5 := true]} |})) !! 5
    = Some true.
Proof.
  assert (Hne : 5 ≠ Sample.ret) by discriminate.
  split; [exact Hne|].
  rewrite (other_holders_untouched Sample.provider Sample.home Sample.url
             (VStr "mp4") Sample.ret {| w_fs := ∅; w_boolvars := {[5 := true]} |}
             5 Hne).
  reflexivity.
Defined.

(** The rejected empty URL downloads nothing and leaves the disk alone. *)
Lemma untouched_disk_at_empty_url :
  download_calls
    (run_events (downloadYouTubeVideo Sample.provider Sample.home Sample.empty_url
                   (VStr "mp3") Sample.ret Sample.world_with_mp3)) = []
  ∧ w_fs (run_world (downloadYouTubeVideo Sample.provider Sample.home
                       Sample.empty_url (VStr "mp3") Sample.ret
                       Sample.world_with_mp3))
    = w_fs Sample.world_with_mp3.
Proof.
  assert (Hd : download_calls
                 (run_events (downloadYouTubeVideo Sample.provider Sample.home
                                Sample.empty_url (VStr "mp3") Sample.ret
                                Sample.world_with_mp3)) = []) by reflexivity.
  split; [exact Hd|].
  exact (proj1 (disk_changes_through_download_only Sample.provider Sample.home
                  Sample.empty_url (VStr "mp3") Sample.ret Sample.world_with_mp3)
               Hd).
Defined.

(** On the disk that holds an older [Clip.mp3] the overwrite is logged. *)
Lemma overwrite_warning_at_sample :
  is_Some ((<["/home/u/Downloads/Clip.mp4" := Sample.bytes]>
              (w_fs Sample.world_with_mp3))
             !! mp3_path "/home/u/Downloads/Clip.mp4")
  ∧ LogWarning "Overwriting file with identical name."
      ∈ run_events (downloadYouTubeVideo Sample.provider Sample.home Sample.url
                      (VStr "mp3") Sample.ret Sample.world_with_mp3).
Proof.
  assert (Hex : is_Some ((<["/home/u/Downloads/Clip.mp4" := Sample.bytes]>
                            (w_fs Sample.world_with_mp3))
                           !! mp3_path "/home/u/Downloads/Clip.mp4"))
    by (exists [Byte.x00]; vm_compute; reflexivity).
  split; [exact Hex|].
  destruct (overwrite_warning_iff Sample.provider Sample.home Sample.url
              Sample.ret Sample.world_with_mp3 7 "Clip" 1
              "/home/u/Downloads/Clip.mp4"
              (<["/home/u/Downloads/Clip.mp4" := Sample.bytes]>
                 (w_fs Sample.world_with_mp3))
              eq_refl eq_refl eq_refl eq_refl)
    as [[_ H] _].
  exact (H Hex).
Defined.

(** The full disk raises at every click, and the window stays. *)
Lemma window_survives_full_disk :
  never_exits Sample.disk_full
  ∧ gui_outcome (createGUI Sample.disk_full Sample.home ∅
                   [TypeText "https://example.com/watch?v=abc"; Click 3; Click 2])
    = Returned (VBool true)
  ∧ List.filter is_resolution
      (s_log (gui_session
                (createGUI Sample.disk_full Sample.home ∅
                   [TypeText "https://example.com/watch?v=abc"; Click 3; Click 2])))
    = [CallYouTube "https://example.com/watch?v=abc" true;
       CallYouTube "https://example.com/watch?v=abc" true].
Proof.
  assert (Hne : never_exits Sample.disk_full).
  { split; [intros y; discriminate|intros x d f f' H; discriminate H]. }
  split; [exact Hne|].
  destruct (window_survives_failures Sample.disk_full Sample.home ∅
              [TypeText "https://example.com/watch?v=abc"; Click 3; Click 2] Hne)
    as (H1 & _ & H3 & _).
  split; [exact H1|exact H3].
Defined.


(** The third widget is the button labelled [mp3]. *)
Lemma mp3_button_at_window :
  win_widgets createGUI_window !! 2
  = Some (Button "mp3" 12 (VStr "mp3") 2 0)
  ∧ List.filter is_video_selection
      (run_events (downloadYouTubeVideo Sample.provider Sample.home Sample.url
                     (VStr "mp3") Sample.ret Sample.world)) = [].
Proof.
  assert (Hw : win_widgets createGUI_window !! 2
               = Some (Button "mp3" 12 (VStr "mp3") 2 0)) by reflexivity.
  split; [exact Hw|].
  destruct (button_label_names_its_format Sample.provider Sample.home Sample.url
              Sample.ret Sample.world 2 "mp3" 12 (VStr "mp3") 2 0 Hw)
    as (_ & _ & _ & H4).
  exact (H4 eq_refl).
Defined.
